(** * Indian AQI dashboard: the acquisition and classification pipeline

    A shallow embedding of [aqi_dashboard.py]: the category classifier
    [get_aqi_category], the per-city fetcher [get_aqi_data], the batch
    collector [fetch_all_cities_data] and the in-place normalization block
    of the page script, with the properties of the specification stated and
    settled against them. *)

From Stdlib Require Import QArith Lqa.
From stdpp Require Import gmap strings pretty list fin_maps.

Local Open Scope string_scope.
Local Open Scope Z_scope.
Local Open Scope list_scope.

(** ** Python values

    The values the pipeline handles all come out of [response.json()] or are
    literals of the script, so they are JSON-shaped.  A Python [float] is a
    NaN, an infinity or a finite binary64; every finite binary64 is a
    rational number, and the only operation the script performs on floats is
    a comparison against an integer literal, which Python carries out
    exactly.  A finite float is therefore represented by its value in [Q]. *)

Inductive pyfloat :=
  | FNaN
  | FInf (negative : bool)
  | FFin (q : Q).

#[warnings="-register-all"]
Inductive pyval :=
  | PNone
  | PBool (b : bool)
  | PInt (z : Z)
  | PFloat (f : pyfloat)
  | PStr (s : string)
  | PList (l : list pyval)
  | PDict (d : list (string * pyval)).

(** [bool(v)], as used by [if v:] and [not v]. *)
Definition truthy (v : pyval) : bool :=
  match v with
  | PNone => false
  | PBool b => b
  | PInt z => negb (Z.eqb z 0)
  | PFloat FNaN => true
  | PFloat (FInf _) => true
  | PFloat (FFin q) => negb (Qeq_bool q 0)
  | PStr s => negb (String.eqb s "")
  | PList l => match l with [] => false | _ => true end
  | PDict d => match d with [] => false | _ => true end
  end.

(** [isinstance(v, (int, float))]: [bool] is a subclass of [int]. *)
Definition is_numeric (v : pyval) : bool :=
  match v with
  | PBool _ | PInt _ | PFloat _ => true
  | _ => false
  end.

(** The number a numeric value stands for in a comparison. *)
Definition as_number (v : pyval) : option pyfloat :=
  match v with
  | PBool b => Some (FFin (if b then 1%Q else 0%Q))
  | PInt z => Some (FFin (inject_Z z))
  | PFloat f => Some f
  | _ => None
  end.

(** [a <= b] and [a < b] on numbers; every comparison with a NaN is false. *)
Definition num_le (a b : pyfloat) : bool :=
  match a, b with
  | FNaN, _ | _, FNaN => false
  | FInf true, _ => true
  | _, FInf false => true
  | FInf false, _ => false
  | _, FInf true => false
  | FFin p, FFin q => Qle_bool p q
  end.

Definition num_lt (a b : pyfloat) : bool :=
  match a, b with
  | FNaN, _ | _, FNaN => false
  | FInf false, _ => false
  | _, FInf true => false
  | FInf true, _ => true
  | _, FInf false => true
  | FFin p, FFin q => negb (Qle_bool q p)
  end.

Definition lit (z : Z) : pyfloat := FFin (inject_Z z).

(** ** Category classifier *)

Definition Unknown : string * string := ("Unknown", "#808080").

Definition get_aqi_category (aqi : pyval) : string * string :=
  match as_number aqi with
  | None => ("Unknown", "#808080")
  | Some a =>
      if num_le (lit 0) a && num_le a (lit 50) then ("Good", "#009966")
      else if num_le (lit 51) a && num_le a (lit 100) then ("Moderate", "#FFDE33")
      else if num_le (lit 101) a && num_le a (lit 150)
           then ("Unhealthy for Sensitive Groups", "#FF9933")
      else if num_le (lit 151) a && num_le a (lit 200) then ("Unhealthy", "#CC0033")
      else if num_le (lit 201) a && num_le a (lit 300) then ("Very Unhealthy", "#660099")
      else if num_lt (lit 300) a then ("Hazardous", "#7E0023")
      else ("Unknown", "#808080")
  end.

(** The band table of section 4.1 of the specification, written from its
    words: five inclusive bands and one open-ended band. *)
Inductive band_range :=
  | Closed (lo hi : Z)
  | Above (lo : Z).

Definition spec_bands : list (band_range * (string * string)) :=
  [ (Closed 0 50, ("Good", "#009966"));
    (Closed 51 100, ("Moderate", "#FFDE33"));
    (Closed 101 150, ("Unhealthy for Sensitive Groups", "#FF9933"));
    (Closed 151 200, ("Unhealthy", "#CC0033"));
    (Closed 201 300, ("Very Unhealthy", "#660099"));
    (Above 300, ("Hazardous", "#7E0023")) ].

Definition in_range (r : band_range) (q : Q) : Prop :=
  match r with
  | Closed lo hi => (inject_Z lo <= q)%Q ∧ (q <= inject_Z hi)%Q
  | Above lo => (inject_Z lo < q)%Q
  end.

(** The value of a finite number. *)
Definition finite_value (v : pyval) : option Q :=
  match as_number v with
  | Some (FFin q) => Some q
  | _ => None
  end.

(** ** Exceptions and effects

    Only subclasses of [Exception] are modelled.  [RequestException] stands
    for the whole [requests.exceptions] hierarchy (HTTP errors, connection
    errors, timeouts); the other classes are the ones the interpreter raises
    on a malformed payload, and [OtherError] is any further subclass of
    [Exception] a library call may raise. *)

Inductive exn_class :=
  | RequestException
  | AttributeError
  | KeyError
  | TypeError
  | IndexError
  | ValueError
  | OtherError.

Record exn := Exn { exn_cls : exn_class; exn_text : string }.

(** [except requests.exceptions.RequestException] catches it; otherwise
    [except Exception] does. *)
Definition is_request_exception (e : exn) : bool :=
  match exn_cls e with
  | RequestException => true
  | _ => false
  end.

Inductive outcome (A : Type) :=
  | Ret (a : A)
  | Raise (e : exn).
Arguments Ret {A} a.
Arguments Raise {A} e.

#[global] Instance outcome_ret : MRet outcome := λ A a, Ret a.
#[global] Instance outcome_bind : MBind outcome := λ A B k m,
  match m with
  | Ret a => k a
  | Raise e => Raise e
  end.

(** What a run does to the outside world, in order. *)
Inductive event :=
  | EvHttpGet (url : string)
  | EvProgressNew (text : string)
  | EvProgress (processed total : nat) (text : string)
  | EvSleep
  | EvProgressEmpty
  | EvStError (msg : string).

(** A computation emits events and then returns or raises. *)
Definition M (A : Type) : Type := list event * outcome A.

#[global] Instance M_ret : MRet M := λ A a, ([], Ret a).
#[global] Instance M_bind : MBind M := λ A B k m,
  match m with
  | (t, Ret a) => let '(t', r) := k a in (t ++ t', r)
  | (t, Raise e) => (t, Raise e)
  end.

Definition emit (e : event) : M unit := ([e], Ret tt).
Definition lift {A} (o : outcome A) : M A := ([], o).

(** [try: body except Exception as e: handler e]. *)
Definition try_except {A} (body : M A) (handler : exn → M A) : M A :=
  match body with
  | (t, Ret a) => (t, Ret a)
  | (t, Raise e) => let '(t', r) := handler e in (t ++ t', r)
  end.

(** ** The Python operations the script applies to payloads *)

Definition type_name (v : pyval) : string :=
  match v with
  | PNone => "NoneType"
  | PBool _ => "bool"
  | PInt _ => "int"
  | PFloat _ => "float"
  | PStr _ => "str"
  | PList _ => "list"
  | PDict _ => "dict"
  end.

Fixpoint assoc (key : string) (d : list (string * pyval)) : option pyval :=
  match d with
  | [] => None
  | (k, v) :: rest => if String.eqb k key then Some v else assoc key rest
  end.

(** [v.get(key, default)]: only a [dict] has the method. *)
Definition py_get (v : pyval) (key : string) (default : pyval) : outcome pyval :=
  match v with
  | PDict d => Ret (match assoc key d with Some x => x | None => default end)
  | _ => Raise (Exn AttributeError
                  ("'" +:+ type_name v +:+ "' object has no attribute 'get'"))
  end.

(** [v[key]] with a string key. *)
Definition py_getitem_str (v : pyval) (key : string) : outcome pyval :=
  match v with
  | PDict d =>
      match assoc key d with
      | Some x => Ret x
      | None => Raise (Exn KeyError ("'" +:+ key +:+ "'"))
      end
  | PList _ =>
      Raise (Exn TypeError "list indices must be integers or slices, not str")
  | PStr _ => Raise (Exn TypeError "string indices must be integers, not 'str'")
  | _ => Raise (Exn TypeError
                  ("'" +:+ type_name v +:+ "' object is not subscriptable"))
  end.

(** A Python [str] is a sequence of code points.  A [PStr] holds the text
    in UTF-8, where a code point is a byte that is no continuation byte
    followed by its continuation bytes (10xxxxxx).  (A [str] with a lone
    surrogate has no UTF-8 form and is not covered.) *)
Definition is_continuation (c : Ascii.ascii) : bool :=
  let n := Ascii.nat_of_ascii c in
  Nat.leb 128 n && Nat.ltb n 192.

(** The continuation bytes a text starts with, and the code points after
    them. *)
Fixpoint chunks (s : string) : string * list string :=
  match s with
  | EmptyString => (EmptyString, [])
  | String c rest =>
      let '(cont, cps) := chunks rest in
      if is_continuation c then (String c cont, cps)
      else (EmptyString, String c cont :: cps)
  end.

Definition code_points (s : string) : list string :=
  match chunks s with
  | (EmptyString, cps) => cps
  | (cont, cps) => cont :: cps
  end.

(** [v[i]] with a literal index [i]; the keys of a JSON object are strings,
    so an integer is never among them. *)
Definition py_getitem_idx (v : pyval) (i : nat) : outcome pyval :=
  match v with
  | PList l =>
      match l !! i with
      | Some x => Ret x
      | None => Raise (Exn IndexError "list index out of range")
      end
  | PStr s =>
      match code_points s !! i with
      | Some c => Ret (PStr c)
      | None => Raise (Exn IndexError "string index out of range")
      end
  | PDict _ => Raise (Exn KeyError (pretty (Z.of_nat i)))
  | _ => Raise (Exn TypeError
                  ("'" +:+ type_name v +:+ "' object is not subscriptable"))
  end.

(** [v == "literal"]. *)
Definition py_eq_str (v : pyval) (s : string) : bool :=
  match v with
  | PStr s' => String.eqb s' s
  | _ => false
  end.

(** ** Configuration *)

(** The module writes a literal token into the process environment and then
    reads the variable back. *)
Definition hardcoded_token : string := "b8a98b4df9ea8410319e6beaeab5a8729da1efd9".

Definition environ_after_load (environ : gmap string string) : gmap string string :=
  <["AQI_API_TOKEN" := hardcoded_token]> environ.

Definition module_API_TOKEN (environ : gmap string string) : option string :=
  environ_after_load environ !! "AQI_API_TOKEN".

(** [not API_TOKEN]: the variable is unset ([None]) or empty. *)
Definition token_missing (tok : option string) : bool :=
  match tok with
  | None => true
  | Some s => String.eqb s ""
  end.

(** How an f-string renders the token. *)
Definition token_text (tok : option string) : string :=
  match tok with
  | None => "None"
  | Some s => s
  end.

(** The URL of the feed of one city. *)
Definition feed_url (tok : option string) (city_name : string) : string :=
  "https://api.waqi.info/feed/" +:+ city_name +:+ "/?token=" +:+ token_text tok.

(** Display name and API identifier, in declaration order. *)
Definition CITIES : list (string * string) :=
  [ ("Delhi", "delhi"); ("Mumbai", "mumbai"); ("Kolkata", "kolkata");
    ("Chennai", "chennai"); ("Bengaluru", "bangalore");
    ("Hyderabad", "hyderabad"); ("Pune", "pune"); ("Ahmedabad", "ahmedabad");
    ("Jaipur", "jaipur"); ("Lucknow", "lucknow"); ("Bhopal", "bhopal");
    ("Patna", "patna") ].

(** ** The HTTP collaborator

    What [requests.get(url, timeout=10)] gives back: the status code, the
    text [raise_for_status] puts into its [HTTPError], and what
    [response.json()] does with the body. *)
Record response := Response {
  status_code : Z;
  http_error_text : string;
  json : outcome pyval
}.

Definition raise_for_status (r : response) : outcome unit :=
  if (400 <=? status_code r) && (status_code r <? 600)
  then Raise (Exn RequestException (http_error_text r))
  else Ret tt.

(** ** Rows and tables *)

(** The [data_point] dictionary built for one city. *)
Record DataPoint := {
  City : string;
  AQI : pyval;
  Latitude : pyval;
  Longitude : pyval;
  Timestamp : pyval
}.

(** A row of the table: its index label and its cells. *)
Record Row := { label : nat; cells : DataPoint }.

(** A [DataFrame] with the five columns of [data_point] and, once they
    have been assigned, the derived columns [Category] and [Color]. *)
Record DataFrame := {
  df_rows : list Row;
  Category : option (list string);
  Color : option (list string)
}.

(** [pd.DataFrame(all_data)]: one row per dictionary, labelled 0, 1, ... *)
Definition pd_DataFrame (all_data : list DataPoint) : DataFrame :=
  {| df_rows := imap (λ i dp, {| label := i; cells := dp |}) all_data;
     Category := None;
     Color := None |}.

(** [df.empty]. *)
Definition df_empty (df : DataFrame) : bool :=
  match df_rows df with [] => true | _ => false end.

(** ** Fetcher and collector *)

Section Pipeline.

(** The module global read by both functions. *)
Variable API_TOKEN : option string.
(** [requests.get(url, timeout=10)]. *)
Variable requests_get : string → outcome response.
(** [str(v)] of a value that is not a string. *)
Variable py_repr : pyval → string.

(** How an f-string renders a value. *)
Definition py_str (v : pyval) : string :=
  match v with
  | PStr s => s
  | _ => py_repr v
  end.

Definition get_aqi_data (city_name : string) : M (pyval * pyval) :=
  if token_missing API_TOKEN then
    mret (PNone,
          PStr "API Token not configured. Please set the AQI_API_TOKEN environment variable.")
  else
    let url := feed_url API_TOKEN city_name in
    try_except
      (emit (EvHttpGet url);;
       response ← lift (requests_get url);
       lift (raise_for_status response);;
       data ← lift (json response);
       status ← lift (py_get data "status" PNone);
       if py_eq_str status "ok" then
         d ← lift (py_getitem_str data "data");
         mret (d, PNone)
       else
         e ← lift (py_get data "data" (PStr "Unknown error from API."));
         mret (PNone, e))
      (λ e,
         if is_request_exception e then
           mret (PNone, PStr ("Network error: " +:+ exn_text e))
         else
           mret (PNone, PStr ("An unexpected error occurred: " +:+ exn_text e))).

(** The dictionary literal of the loop body; its values are evaluated in
    the order they are written. *)
Definition data_point (city_display_name : string) (aqi_data : pyval)
  : outcome DataPoint :=
  aqi ← py_get aqi_data "aqi" PNone;
  city ← py_get aqi_data "city" (PDict []);
  geo ← py_get city "geo" (PList [PNone; PNone]);
  lat ← py_getitem_idx geo 0;
  city' ← py_get aqi_data "city" (PDict []);
  geo' ← py_get city' "geo" (PList [PNone; PNone]);
  lon ← py_getitem_idx geo' 1;
  time ← py_get aqi_data "time" (PDict []);
  s ← py_get time "s" (PStr "N/A");
  mret {| City := city_display_name; AQI := aqi; Latitude := lat;
          Longitude := lon; Timestamp := s |}.

(** The body of the [for] loop up to the progress update: what one city
    does to [all_data] and [errors]. *)
Definition visit_city (city_display_name city_api_name : string)
    (all_data : list DataPoint) (errors : list string)
  : M (list DataPoint * list string) :=
  '(aqi_data, error) ← get_aqi_data city_api_name;
  if truthy error then
    mret (all_data,
          errors ++ ["Could not fetch data for " +:+ city_display_name
                     +:+ ": " +:+ py_str error])
  else if truthy aqi_data then
    dp ← lift (data_point city_display_name aqi_data);
    mret (all_data ++ [dp], errors)
  else mret (all_data, errors).

(** [for i, (city_display_name, city_api_name) in enumerate(items)],
    started at index [i], with [total = len(city_list)]. *)
Fixpoint fetch_loop (total i : nat) (items : list (string * string))
    (all_data : list DataPoint) (errors : list string)
  : M (list DataPoint * list string) :=
  match items with
  | [] => mret (all_data, errors)
  | (city_display_name, city_api_name) :: rest =>
      '(all_data', errors') ←
        visit_city city_display_name city_api_name all_data errors;
      emit (EvProgress (S i) total
              ("Fetching data for " +:+ city_display_name +:+ "..."));;
      emit EvSleep;;
      fetch_loop total (S i) rest all_data' errors'
  end.

Definition FATAL : string :=
  "FATAL: AQI_API_TOKEN is not set. The application cannot fetch data. Please get a token from [aqicn.org](https://aqicn.org/data-platform/token/) and set it as an environment variable or in the script.".

(** The collector over a city table; the script runs it on [CITIES]. *)
Definition fetch_all (cities : list (string * string))
  : M (DataFrame * list string) :=
  emit (EvProgressNew "Fetching data for all cities...");;
  '(all_data, errors) ← fetch_loop (length cities) 0 cities [] [];
  emit EvProgressEmpty;;
  if (match all_data with [] => true | _ => false end) && token_missing API_TOKEN
  then
    emit (EvStError FATAL);;
    mret (pd_DataFrame [], [])
  else mret (pd_DataFrame all_data, errors).

Definition fetch_all_cities_data : M (DataFrame * list string) :=
  fetch_all CITIES.

End Pipeline.

(** ** Normalization

    The page script binds the table returned by the collector to [df] and
    then works on that object in place.  Objects live in a store, a variable
    holds the address of its object, and two variables bound to the same
    object share its address.

    A column of a real [DataFrame] has one storage type, so pandas may keep
    [None] as NaN and an integer as a float.  That never changes whether a
    cell is null, and the float is the equal number for every integer that
    float64 holds exactly, which covers any AQI reading; cells keep their
    Python value here, and the rounding of a larger integer is not
    followed. *)

Abbreviation store := (gmap positive DataFrame).

(** [pd.isna] of a cell. *)
Definition isna (v : pyval) : bool :=
  match v with
  | PNone => true
  | PFloat FNaN => true
  | _ => false
  end.

Definition NaN : pyval := PFloat FNaN.

(** A row is kept by [dropna(subset=['AQI', 'Latitude', 'Longitude'])] when
    none of the three cells is null. *)
Definition complete (r : Row) : bool :=
  negb (isna (AQI (cells r))) && negb (isna (Latitude (cells r)))
  && negb (isna (Longitude (cells r))).

(** The entries of a column that stand at the kept positions. *)
Fixpoint keep {A} (mask : list bool) (xs : list A) : list A :=
  match mask, xs with
  | b :: mask', x :: xs' => if b then x :: keep mask' xs' else keep mask' xs'
  | _, _ => []
  end.

Definition dropna_frame (f : DataFrame) : DataFrame :=
  let mask := map complete (df_rows f) in
  {| df_rows := keep mask (df_rows f);
     Category := keep mask <$> Category f;
     Color := keep mask <$> Color f |}.

Definition set_AQI (v : pyval) (r : Row) : Row :=
  {| label := label r;
     cells := {| City := City (cells r); AQI := v;
                 Latitude := Latitude (cells r);
                 Longitude := Longitude (cells r);
                 Timestamp := Timestamp (cells r) |} |}.

(** A number as pandas delivers it. *)
Inductive number :=
  | NInt (z : Z)
  | NFloat (f : pyfloat).

Definition of_number (n : number) : pyval :=
  match n with
  | NInt z => PInt z
  | NFloat f => PFloat f
  end.

Section Normalizer.

(** What the converter of [pd.to_numeric] makes of an object that is not
    a number (a string such as ["42"], a list, a dictionary): the number
    it reads, or nothing when it cannot read one. *)
Variable convert_object : pyval → option number.

(** [pd.to_numeric(..., errors='coerce')] on one cell. *)
Definition to_numeric (v : pyval) : pyval :=
  match v with
  | PBool _ | PInt _ | PFloat _ => v
  | PNone => NaN
  | PStr _ | PList _ | PDict _ =>
      match convert_object v with
      | Some n => of_number n
      | None => NaN
      end
  end.

Definition coerce_AQI (f : DataFrame) : DataFrame :=
  {| df_rows := map (λ r, set_AQI (to_numeric (AQI (cells r))) r) (df_rows f);
     Category := Category f;
     Color := Color f |}.

Definition set_categories (cats : list (string * string)) (f : DataFrame)
  : DataFrame :=
  {| df_rows := df_rows f;
     Category := Some (map fst cats);
     Color := Some (map snd cats) |}.

(** The table after the first two statements of the block. *)
Definition cleaned (f : DataFrame) : DataFrame :=
  coerce_AQI (dropna_frame f).

(** The three statements of the processing block, on the object at [df]:
    [df.dropna(subset=[...], inplace=True)], the assignment of the coerced
    [AQI] column, and the assignment of the two derived columns.
    Unpacking the transposed column into two targets needs at least one row. *)
Definition normalize (df : positive) (σ : store) : store * outcome unit :=
  let σ1 := alter dropna_frame df σ in
  let σ2 := alter coerce_AQI df σ1 in
  match σ2 !! df with
  | None => (σ2, Raise (Exn OtherError "name 'df' is not defined"))
  | Some f =>
      match map (λ r, get_aqi_category (AQI (cells r))) (df_rows f) with
      | [] => (σ2, Raise (Exn ValueError
                            "not enough values to unpack (expected 2, got 0)"))
      | cats => (<[df := set_categories cats f]> σ2, Ret tt)
      end
  end.

(** [if df.empty: ... else: ...] around the block. *)
Definition process_for_display (df : positive) (σ : store)
  : store * outcome unit :=
  match σ !! df with
  | None => (σ, Raise (Exn OtherError "name 'df' is not defined"))
  | Some f => if df_empty f then (σ, Ret tt) else normalize df σ
  end.

End Normalizer.

(** A converter for examples: it reads unsigned decimal integers and
    nothing else (the real one reads more forms of numbers). *)
Definition digit_value (c : Ascii.ascii) : option Z :=
  let n := Z.of_nat (Ascii.nat_of_ascii c) in
  if (48 <=? n) && (n <=? 57) then Some (n - 48) else None.

Fixpoint read_digits (acc : Z) (s : string) : option Z :=
  match s with
  | EmptyString => Some acc
  | String c rest =>
      match digit_value c with
      | Some d => read_digits (10 * acc + d) rest
      | None => None
      end
  end.

Definition decimal_converter (v : pyval) : option number :=
  match v with
  | PStr (String c rest) => NInt <$> read_digits 0 (String c rest)
  | _ => None
  end.

Definition plain_repr (v : pyval) : string := "<" +:+ type_name v +:+ ">".

(** ** Observing a run *)

(** What becomes of one city in the loop: a failure entry, a row, neither
    (the fetcher handed back no error and no data), or an exception out of
    the loop body. *)
Inductive fate :=
  | Failed (entry : string)
  | Fetched (dp : DataPoint)
  | Skipped
  | Crashed (e : exn).

Definition is_failed (f : fate) : bool :=
  match f with Failed _ => true | _ => false end.
Definition is_fetched (f : fate) : bool :=
  match f with Fetched _ => true | _ => false end.
Definition failure_entry (f : fate) : option string :=
  match f with Failed entry => Some entry | _ => None end.
Definition fetched_row (f : fate) : option DataPoint :=
  match f with Fetched dp => Some dp | _ => None end.

Section Observations.

Variable API_TOKEN : option string.
Variable requests_get : string → outcome response.
Variable py_repr : pyval → string.

Definition city_fate (c : string * string) : fate :=
  match (get_aqi_data API_TOKEN requests_get c.2).2 with
  | Ret (aqi_data, error) =>
      if truthy error then
        Failed ("Could not fetch data for " +:+ c.1 +:+ ": "
                +:+ py_str py_repr error)
      else if truthy aqi_data then
        match data_point c.1 aqi_data with
        | Ret dp => Fetched dp
        | Raise e => Crashed e
        end
      else Skipped
  | Raise e => Crashed e
  end.

(** The loop body raises on this city. *)
Definition city_crashed (c : string * string) : Prop :=
  ∃ e, city_fate c = Crashed e.

End Observations.

(** The progress texts, the pacing delays and the fatal messages of a
    trace. *)
Definition progress_texts (t : list event) : list string :=
  omap (λ e, match e with EvProgress _ _ text => Some text | _ => None end) t.

Definition sleeps (t : list event) : nat :=
  length (omap (λ e, match e with EvSleep => Some tt | _ => None end) t).

Definition http_gets (t : list event) : list string :=
  omap (λ e, match e with EvHttpGet url => Some url | _ => None end) t.

Definition st_errors (t : list event) : list string :=
  omap (λ e, match e with EvStError msg => Some msg | _ => None end) t.

(** A payload whose optional fields are absent or have the shape the
    upstream API documents: [city] and [time] objects, [geo] a list of at
    least two entries. *)
Definition geo_shaped (city : list (string * pyval)) : bool :=
  match assoc "geo" city with
  | None => true
  | Some (PList (_ :: _ :: _)) => true
  | Some _ => false
  end.

Definition well_shaped (payload : list (string * pyval)) : bool :=
  match assoc "city" payload with
  | None => true
  | Some (PDict city) => geo_shaped city
  | Some _ => false
  end
  && match assoc "time" payload with
     | None => true
     | Some (PDict _) => true
     | Some _ => false
     end.

(** [payload.get(outer, {}).get(inner)] as a lookup that may find nothing. *)
Definition nested (outer inner : string) (payload : list (string * pyval))
  : option pyval :=
  match assoc outer payload with
  | Some (PDict d) => assoc inner d
  | _ => None
  end.

(** How many entries of a list pass a test. *)
Definition count_where {A} (p : A → bool) (l : list A) : nat :=
  length (List.filter p l).

(** ** Sample collaborators for the examples *)

Definition sample_reading : pyval :=
  PDict [("aqi", PInt 42);
         ("city", PDict [("geo", PList [PFloat (FFin (57 # 2));
                                        PFloat (FFin (77 # 1))])]);
         ("time", PDict [("s", PStr "2024-01-01 10:00:00")])].

(** A network on which three cities time out and the others answer. *)
Definition sample_network (url : string) : outcome response :=
  if String.eqb url (feed_url (Some "t") "delhi")
     || String.eqb url (feed_url (Some "t") "pune")
     || String.eqb url (feed_url (Some "t") "patna")
  then Raise (Exn RequestException "timed out")
  else Ret (Response 200 ""
              (Ret (PDict [("status", PStr "ok"); ("data", sample_reading)]))).

(** A network that is down. *)
Definition dead_network (url : string) : outcome response :=
  Raise (Exn RequestException "connection refused").

(** What normalization leaves alone in a row: its label and every cell but
    the AQI. *)
Definition untouched (r : Row) : nat * string * pyval * pyval * pyval :=
  (label r, City (cells r), Latitude (cells r), Longitude (cells r),
   Timestamp (cells r)).

Definition reading (name : string) (aqi lat lon : pyval) : DataPoint :=
  {| City := name; AQI := aqi; Latitude := lat; Longitude := lon;
     Timestamp := PStr "2024-01-01 10:00:00" |}.

(** Three complete rows. *)
Definition three_cities : DataFrame :=
  pd_DataFrame
    [ reading "Delhi" (PInt 180) (PFloat (FFin (57 # 2))) (PFloat (FFin (77 # 1)));
      reading "Mumbai" (PInt 75) (PFloat (FFin (19 # 1))) (PFloat (FFin (73 # 1)));
      reading "Kolkata" (PInt 120) (PFloat (FFin (45 # 2))) (PFloat (FFin (88 # 1))) ].

(** A station without a current value reports its AQI as a dash. *)
Definition dash_station : DataFrame :=
  pd_DataFrame
    [ reading "Delhi" (PStr "-") (PFloat (FFin (57 # 2))) (PFloat (FFin (77 # 1))) ].

(** One row lacks its coordinates. *)
Definition one_incomplete : DataFrame :=
  pd_DataFrame
    [ reading "Delhi" (PInt 180) (PFloat (FFin (57 # 2))) (PFloat (FFin (77 # 1)));
      reading "Mumbai" (PInt 75) PNone PNone;
      reading "Kolkata" (PInt 120) (PFloat (FFin (45 # 2))) (PFloat (FFin (88 # 1))) ].

(** ** Further observations *)

(** The request to [url] is answered with a status outside 400..599 and a
    body that decodes to the JSON object [payload]. *)
Definition answers (requests_get : string → outcome response) (url : string)
    (payload : list (string * pyval)) : Prop :=
  ∃ r, requests_get url = Ret r
       ∧ raise_for_status r = Ret tt
       ∧ json r = Ret (PDict payload).

(** The fractions passed to the progress bar, as numerator and denominator. *)
Definition progress_steps (t : list event) : list (nat * nat) :=
  omap (λ e, match e with
             | EvProgress processed total _ => Some (processed, total)
             | _ => None
             end) t.

(** A value whose entries 0 and 1 can be read: a list of at least two
    entries or a string of at least two code points. *)
Definition indexable (v : pyval) : bool :=
  match v with
  | PList (_ :: _ :: _) => true
  | PStr s => match code_points s with _ :: _ :: _ => true | _ => false end
  | _ => false
  end.

(** The readings from which the row of a city can be built. *)
Definition extractable (payload : list (string * pyval)) : bool :=
  match assoc "city" payload with
  | None => true
  | Some (PDict city) =>
      match assoc "geo" city with
      | None => true
      | Some geo => indexable geo
      end
  | Some _ => false
  end
  && match assoc "time" payload with
     | None => true
     | Some (PDict _) => true
     | Some _ => false
     end.

(** The place of a category in the table, from the mildest band on. *)
Fixpoint position (out : string * string)
    (bands : list (band_range * (string * string))) : option nat :=
  match bands with
  | [] => None
  | (_, out') :: rest =>
      if decide (out = out') then Some 0%nat else S <$> position out rest
  end.

Definition severity (out : string * string) : option nat :=
  position out spec_bands.

(** A network on which every station answers with an empty reading. *)
Definition empty_network (url : string) : outcome response :=
  Ret (Response 200 "" (Ret (PDict [("status", PStr "ok"); ("data", PDict [])]))).

(** A network on which the third city of the table sends a reading whose
    geo field is null. *)
Definition broken_network (url : string) : outcome response :=
  if String.eqb url (feed_url (Some "t") "kolkata")
  then Ret (Response 200 ""
              (Ret (PDict [("status", PStr "ok");
                           ("data", PDict [("aqi", PInt 42);
                                           ("city", PDict [("geo", PNone)])])])))
  else Ret (Response 200 ""
              (Ret (PDict [("status", PStr "ok"); ("data", sample_reading)]))).

(** No row has all three cells. *)
Definition all_incomplete : DataFrame :=
  pd_DataFrame
    [ reading "Delhi" PNone (PFloat (FFin (57 # 2))) (PFloat (FFin (77 # 1)));
      reading "Mumbai" (PInt 75) PNone PNone ].

(** ** The data part of the page script

    The script calls the collector, binds the table to [df], shows every
    failure entry as a warning, and then either tells that there is nothing
    to show or runs the processing block on [df].  What follows the block
    only draws the table.  Here the collector runs in full, as it does
    whenever the page has no fresh batch at hand. *)

Inductive page_event :=
  | Collector (e : event)
  | StWarning (msg : string)
  | StInfo (msg : string).

Definition NO_DATA : string :=
  "No data available to display. This could be due to API issues or a missing API token.".

Definition show_data (API_TOKEN : option string)
    (requests_get : string → outcome response) (py_repr : pyval → string)
    (convert_object : pyval → option number) (df : positive) (σ : store)
  : store * list page_event * outcome unit :=
  match fetch_all_cities_data API_TOKEN requests_get py_repr with
  | (t, Raise e) => (σ, map Collector t, Raise e)
  | (t, Ret (frame, fetch_errors)) =>
      let σ1 := <[df := frame]> σ in
      let shown := map Collector t ++ map StWarning fetch_errors in
      if df_empty frame then (σ1, shown ++ [StInfo NO_DATA], Ret tt)
      else let '(σ2, r) := normalize convert_object df σ1 in (σ2, shown, r)
  end.

(** The warnings of a page trace. *)
Definition warnings (t : list page_event) : list string :=
  omap (λ e, match e with StWarning msg => Some msg | _ => None end) t.

(** The notices of a page trace. *)
Definition notices (t : list page_event) : list string :=
  omap (λ e, match e with StInfo msg => Some msg | _ => None end) t.

(** A network on which every station answers with a reading that has no
    coordinates. *)
Definition placeless_network (url : string) : outcome response :=
  Ret (Response 200 ""
         (Ret (PDict [("status", PStr "ok");
                      ("data", PDict [("aqi", PInt 42)])]))).

(** ** The result of one fetch *)

Section FetchResults.

Variable API_TOKEN : option string.
Variable requests_get : string → outcome response.

(** The fetch of a city fails with a message the loop takes for an error:
    the second component of the pair is truthy. *)
Definition fetch_failed (c : string * string) : bool :=
  match (get_aqi_data API_TOKEN requests_get c.2).2 with
  | Ret (_, error) => truthy error
  | Raise _ => false
  end.

(** The fetch of a city returns no error and a reading that is a non-empty
    object whose optional fields are absent or well shaped. *)
Definition fetch_read (c : string * string) : bool :=
  match (get_aqi_data API_TOKEN requests_get c.2).2 with
  | Ret (PDict payload, error) =>
      negb (truthy error) && truthy (PDict payload) && well_shaped payload
  | _ => false
  end.

End FetchResults.

(** A network on which three stations report a failure with an empty
    message and the others answer. *)
Definition mute_network (url : string) : outcome response :=
  if String.eqb url (feed_url (Some "t") "delhi")
     || String.eqb url (feed_url (Some "t") "pune")
     || String.eqb url (feed_url (Some "t") "patna")
  then Ret (Response 200 ""
              (Ret (PDict [("status", PStr "error"); ("data", PStr "")])))
  else Ret (Response 200 ""
              (Ret (PDict [("status", PStr "ok"); ("data", sample_reading)]))).

(** A reading whose geo field is null. *)
Definition null_geo_reading : pyval :=
  PDict [("aqi", PInt 42); ("city", PDict [("geo", PNone)])].

(** A network on which three cities time out, one station sends a reading
    with a null geo field and the others answer. *)
Definition null_geo_network (url : string) : outcome response :=
  if String.eqb url (feed_url (Some "t") "delhi")
     || String.eqb url (feed_url (Some "t") "pune")
     || String.eqb url (feed_url (Some "t") "patna")
  then Raise (Exn RequestException "timed out")
  else if String.eqb url (feed_url (Some "t") "kolkata")
  then Ret (Response 200 ""
              (Ret (PDict [("status", PStr "ok"); ("data", null_geo_reading)])))
  else Ret (Response 200 ""
              (Ret (PDict [("status", PStr "ok"); ("data", sample_reading)]))).

(** * Properties *)

(** ** Classifier *)

Lemma num_le_litP (z : Z) (q : Q) :
  reflect (inject_Z z <= q)%Q (num_le (lit z) (FFin q)).
Proof. apply iff_reflect. symmetry. apply Qle_bool_iff. Qed.

Lemma num_le_ritP (q : Q) (z : Z) :
  reflect (q <= inject_Z z)%Q (num_le (FFin q) (lit z)).
Proof. apply iff_reflect. symmetry. apply Qle_bool_iff. Qed.

Lemma num_lt_litP (z : Z) (q : Q) :
  reflect (inject_Z z < q)%Q (num_lt (lit z) (FFin q)).
Proof.
  apply iff_reflect. unfold num_lt, lit. rewrite negb_true_iff. split.
  - intros H. destruct (Qle_bool q (inject_Z z)) eqn:E; [|done].
    apply Qle_bool_iff in E. exfalso. lra.
  - intros H. apply Qnot_le_lt. intros Hle. apply Qle_bool_iff in Hle. congruence.
Qed.

(** Decide the comparisons of the classifier one after the other. *)
Ltac classify_step q :=
  match goal with
  | |- context [num_le (lit ?z) (FFin q)] =>
      destruct (num_le_litP z q); cbn [andb]
  | |- context [num_le (FFin q) (lit ?z)] =>
      destruct (num_le_ritP q z); cbn [andb]
  | |- context [num_lt (lit ?z) (FFin q)] =>
      destruct (num_lt_litP z q); cbn [andb]
  end.

Ltac classify q :=
  repeat classify_step q;
  unfold in_range, inject_Z in *;
  try reflexivity; try (exfalso; lra).

Ltac in_bands :=
  unfold spec_bands;
  repeat first [apply list_elem_of_here | apply list_elem_of_further].

Lemma spec_bands_inv (r : band_range) (out : string * string) :
  (r, out) ∈ spec_bands →
  (r, out) = (Closed 0 50, ("Good", "#009966"))
  ∨ (r, out) = (Closed 51 100, ("Moderate", "#FFDE33"))
  ∨ (r, out) = (Closed 101 150, ("Unhealthy for Sensitive Groups", "#FF9933"))
  ∨ (r, out) = (Closed 151 200, ("Unhealthy", "#CC0033"))
  ∨ (r, out) = (Closed 201 300, ("Very Unhealthy", "#660099"))
  ∨ (r, out) = (Above 300, ("Hazardous", "#7E0023")).
Proof.
  unfold spec_bands. rewrite !elem_of_cons, elem_of_nil. tauto.
Qed.

Lemma finite_value_number (aqi : pyval) (q : Q) :
  finite_value aqi = Some q → as_number aqi = Some (FFin q).
Proof.
  unfold finite_value. destruct (as_number aqi) as [[| |]|]; congruence.
Qed.

(** On a finite number inside a band the classifier answers with the band. *)
Lemma classify_in_band (aqi : pyval) (q : Q) (r : band_range)
    (out : string * string) :
  finite_value aqi = Some q → (r, out) ∈ spec_bands → in_range r q →
  get_aqi_category aqi = out.
Proof.
  intros Hq Hin Hr. apply finite_value_number in Hq.
  unfold get_aqi_category. rewrite Hq.
  apply spec_bands_inv in Hin.
  destruct Hin as [H|[H|[H|[H|[H|H]]]]]; inversion H; subst; clear H;
    classify q.
Qed.

(** On a finite number outside every band it answers Unknown. *)
Lemma classify_outside (aqi : pyval) (q : Q) :
  finite_value aqi = Some q →
  (∀ r out, (r, out) ∈ spec_bands → ¬ in_range r q) →
  get_aqi_category aqi = Unknown.
Proof.
  intros Hq Hout. apply finite_value_number in Hq.
  unfold get_aqi_category. rewrite Hq.
  pose proof (Hout (Closed 0 50) _ ltac:(in_bands)) as H1.
  pose proof (Hout (Closed 51 100) _ ltac:(in_bands)) as H2.
  pose proof (Hout (Closed 101 150) _ ltac:(in_bands)) as H3.
  pose proof (Hout (Closed 151 200) _ ltac:(in_bands)) as H4.
  pose proof (Hout (Closed 201 300) _ ltac:(in_bands)) as H5.
  pose proof (Hout (Above 300) _ ltac:(in_bands)) as H6.
  clear Hout. unfold Unknown.
  repeat classify_step q; try reflexivity; exfalso;
    unfold in_range in *; tauto.
Qed.

(** No number lies in two bands. *)
Lemma spec_bands_disjoint (q : Q) (r1 r2 : band_range) (o1 o2 : string * string) :
  (r1, o1) ∈ spec_bands → (r2, o2) ∈ spec_bands →
  in_range r1 q → in_range r2 q → (r1, o1) = (r2, o2).
Proof.
  intros H1 H2 Hr1 Hr2.
  apply spec_bands_inv in H1. apply spec_bands_inv in H2.
  destruct H1 as [H|[H|[H|[H|[H|H]]]]]; inversion H; subst; clear H;
    destruct H2 as [H|[H|[H|[H|[H|H]]]]]; inversion H; subst; clear H;
    try reflexivity; exfalso; unfold in_range, inject_Z in *; lra.
Qed.

(** Every integer from 0 upwards lies in a band. *)
Lemma spec_bands_cover_nonneg (z : Z) :
  0 ≤ z → ∃ r out, (r, out) ∈ spec_bands ∧ in_range r (inject_Z z).
Proof.
  intros Hz. unfold spec_bands.
  assert (Hle : ∀ a b : Z, a ≤ b → (inject_Z a <= inject_Z b)%Q)
    by (intros a b; rewrite <- Zle_Qle; done).
  assert (Hlt : ∀ a b : Z, a < b → (inject_Z a < inject_Z b)%Q)
    by (intros a b; rewrite <- Zlt_Qlt; done).
  destruct (decide (z ≤ 50)); [eexists (Closed 0 50), _; split; [in_bands|]; split; apply Hle; lia|].
  destruct (decide (z ≤ 100)); [eexists (Closed 51 100), _; split; [in_bands|]; split; apply Hle; lia|].
  destruct (decide (z ≤ 150)); [eexists (Closed 101 150), _; split; [in_bands|]; split; apply Hle; lia|].
  destruct (decide (z ≤ 200)); [eexists (Closed 151 200), _; split; [in_bands|]; split; apply Hle; lia|].
  destruct (decide (z ≤ 300)); [eexists (Closed 201 300), _; split; [in_bands|]; split; apply Hle; lia|].
  eexists (Above 300), _; split; [in_bands|]. apply Hlt. lia.
Qed.

(** The answer is always a row of the table: Unknown or one of the bands. *)
Lemma get_aqi_category_total (aqi : pyval) :
  get_aqi_category aqi = Unknown ∨ ∃ r, (r, get_aqi_category aqi) ∈ spec_bands.
Proof.
  unfold get_aqi_category.
  destruct (as_number aqi) as [[|[]|q]|]; try (left; reflexivity).
  - right. exists (Above 300). in_bands.
  - repeat classify_step q;
      first [ left; reflexivity | right; eexists; in_bands ].
Qed.

(** C1, as the code has it.  For a finite number the classifier returns the
    label and colour of the band of the table that contains it, and Unknown
    when no band does; no number lies in two bands; every integer from 0
    upwards lies in one; null, non-numeric values and NaN give Unknown; and
    whatever the input, the answer is Unknown or a band of the table. *)
Theorem get_aqi_category_table (aqi : pyval) :
  (get_aqi_category aqi = Unknown ∨ ∃ r, (r, get_aqi_category aqi) ∈ spec_bands)
  ∧ (∀ q, finite_value aqi = Some q →
       (∀ r out, (r, out) ∈ spec_bands → in_range r q →
                 get_aqi_category aqi = out)
       ∧ ((∀ r out, (r, out) ∈ spec_bands → ¬ in_range r q) →
          get_aqi_category aqi = Unknown)
       ∧ (∀ r1 o1 r2 o2, (r1, o1) ∈ spec_bands → (r2, o2) ∈ spec_bands →
                         in_range r1 q → in_range r2 q → (r1, o1) = (r2, o2)))
  ∧ (∀ z, aqi = PInt z → 0 ≤ z →
       ∃ r, (r, get_aqi_category aqi) ∈ spec_bands ∧ in_range r (inject_Z z))
  ∧ (is_numeric aqi = false → get_aqi_category aqi = Unknown)
  ∧ (aqi = PFloat FNaN → get_aqi_category aqi = Unknown).
Proof.
  split; [apply get_aqi_category_total|].
  split.
  { intros q Hq. split; [|split].
    - intros r out. by apply classify_in_band.
    - by apply classify_outside.
    - intros r1 o1 r2 o2. apply spec_bands_disjoint. }
  split.
  { intros z -> Hz.
    destruct (spec_bands_cover_nonneg z Hz) as (r & out & Hin & Hr).
    exists r. split; [|done].
    by rewrite (classify_in_band (PInt z) (inject_Z z) r out). }
  split.
  - destruct aqi; simpl; intros; done.
  - intros ->. reflexivity.
Qed.

Lemma get_aqi_category_table_witness :
  get_aqi_category (PInt 75) = ("Moderate", "#FFDE33").
Proof.
  destruct (get_aqi_category_table (PInt 75)) as (_ & Hfin & _).
  destruct (Hfin (inject_Z 75) eq_refl) as (Hband & _).
  apply (Hband (Closed 51 100)).
  - in_bands.
  - split; unfold inject_Z, Qle; simpl; lia.
Defined.

(** C1 as stated fails: -1 and 50.5 are numbers, and the classifier maps
    neither to a band of the table. *)
Lemma get_aqi_category_numeric_unbanded :
  is_numeric (PInt (-1)) = true
  ∧ (∀ r, (r, get_aqi_category (PInt (-1))) ∉ spec_bands)
  ∧ is_numeric (PFloat (FFin (101 # 2))) = true
  ∧ (∀ r, (r, get_aqi_category (PFloat (FFin (101 # 2)))) ∉ spec_bands).
Proof.
  repeat split; intros r Hin; apply spec_bands_inv in Hin;
    destruct Hin as [H|[H|[H|[H|[H|H]]]]]; inversion H.
Qed.

Example classify_75 : get_aqi_category (PInt 75) = ("Moderate", "#FFDE33").
Proof. reflexivity. Qed.
Example classify_305 : get_aqi_category (PInt 305) = ("Hazardous", "#7E0023").
Proof. reflexivity. Qed.
Example classify_50 : get_aqi_category (PInt 50) = ("Good", "#009966").
Proof. reflexivity. Qed.
Example classify_null : get_aqi_category PNone = ("Unknown", "#808080").
Proof. reflexivity. Qed.
Example classify_x : get_aqi_category (PStr "x") = ("Unknown", "#808080").
Proof. reflexivity. Qed.

(** An integer and the float equal to it are classified alike, so the
    storage type pandas picks for the column does not matter. *)
Lemma get_aqi_category_int_float (z : Z) :
  get_aqi_category (PFloat (FFin (inject_Z z))) = get_aqi_category (PInt z).
Proof. reflexivity. Qed.

(** ** Fetcher *)

Section FetcherProperties.

Variable API_TOKEN : option string.
Variable requests_get : string → outcome response.

Local Abbreviation fetch := (get_aqi_data API_TOKEN requests_get).

(** What either [except] clause returns for the exception it caught. *)
Local Abbreviation failure ex :=
  (PNone,
   PStr ((if is_request_exception ex then "Network error: "
          else "An unexpected error occurred: ") +:+ exn_text ex)).

(** C4.  The fetcher always returns a pair.  With a token configured: an
    exception out of the request gives a failure message according to its
    class; an HTTP status from 400 to 599 gives a network failure; an
    exception out of the JSON decoding gives a failure likewise; a payload
    that is no object gives a generic failure; and an object payload whose
    status is not "ok" gives the payload's [data] field as the message, or
    the fallback when the field is absent; an object payload whose status
    is "ok" gives its [data] field as the reading, and a generic failure
    when it has none. *)
Theorem get_aqi_data_returns_data (city_name : string) :
  (∃ t d e, fetch city_name = (t, Ret (d, e)))
  ∧ (token_missing API_TOKEN = false →
     (∀ ex, requests_get (feed_url API_TOKEN city_name) = Raise ex →
            (fetch city_name).2 = Ret (failure ex))
     ∧ (∀ r, requests_get (feed_url API_TOKEN city_name) = Ret r →
         (400 ≤ status_code r < 600 →
          (fetch city_name).2
          = Ret (PNone, PStr ("Network error: " +:+ http_error_text r)))
         ∧ (¬ 400 ≤ status_code r < 600 →
            (∀ ex, json r = Raise ex → (fetch city_name).2 = Ret (failure ex))
            ∧ (∀ data, json r = Ret data →
                 (∀ payload, data ≠ PDict payload) →
                 ∃ text, (fetch city_name).2
                         = Ret (PNone,
                                PStr ("An unexpected error occurred: " +:+ text)))
            ∧ (∀ payload, json r = Ret (PDict payload) →
                 assoc "status" payload ≠ Some (PStr "ok") →
                 (fetch city_name).2
                 = Ret (PNone,
                        match assoc "data" payload with
                        | Some msg => msg
                        | None => PStr "Unknown error from API."
                        end))
            ∧ (∀ payload, json r = Ret (PDict payload) →
                 assoc "status" payload = Some (PStr "ok") →
                 (fetch city_name).2
                 = Ret (match assoc "data" payload with
                        | Some reading => (reading, PNone)
                        | None =>
                            (PNone,
                             PStr "An unexpected error occurred: 'data'")
                        end))))).
Proof.
  unfold get_aqi_data. split.
  { destruct (token_missing API_TOKEN); [by eexists _, _, _|].
    cbn. destruct (requests_get _) as [r|ex]; cbn.
    2:{ destruct (is_request_exception ex); by eexists _, _, _. }
    unfold raise_for_status. destruct (_ && _); cbn; [by eexists _, _, _|].
    destruct (json r) as [data|ex]; cbn.
    2:{ destruct (is_request_exception ex); by eexists _, _, _. }
    destruct data; cbn; try by eexists _, _, _.
    destruct (py_eq_str _ _); cbn; [|by eexists _, _, _].
    destruct (assoc "data" d); cbn; by eexists _, _, _. }
  intros ->. split.
  { intros ex ->. cbn. by destruct (is_request_exception ex). }
  intros r ->. cbn. unfold raise_for_status. split.
  { intros [Hlo Hhi].
    apply Z.leb_le in Hlo. apply Z.ltb_lt in Hhi. by rewrite Hlo, Hhi. }
  intros Hst.
  assert ((400 <=? status_code r) && (status_code r <? 600) = false) as ->.
  { apply andb_false_iff.
    destruct (400 <=? status_code r) eqn:E1; [right|by left].
    apply Z.leb_le in E1. apply Z.ltb_ge. lia. }
  cbn. split; [|split; [|split]].
  - intros ex ->. cbn. by destruct (is_request_exception ex).
  - intros data -> Hshape. destruct data; cbn; try by eexists.
    by destruct (Hshape d).
  - intros payload -> Hstatus. cbn.
    assert (py_eq_str (match assoc "status" payload with
                       | Some x => x | None => PNone end) "ok" = false) as ->.
    { destruct (assoc "status" payload) as [[]|]; try done.
      cbn. apply String.eqb_neq. congruence. }
    reflexivity.
  - intros payload -> Hstatus. cbn. rewrite Hstatus. cbn.
    by destruct (assoc "data" payload).
Qed.

End FetcherProperties.

(** An API-reported failure: status 200, payload status "error". *)
Lemma get_aqi_data_returns_data_witness :
  (get_aqi_data (Some "t")
     (λ _, Ret (Response 200 ""
                  (Ret (PDict [("status", PStr "error");
                               ("data", PStr "Invalid key")]))))
     "delhi").2
  = Ret (PNone, PStr "Invalid key").
Proof.
  destruct (get_aqi_data_returns_data (Some "t")
              (λ _, Ret (Response 200 ""
                           (Ret (PDict [("status", PStr "error");
                                        ("data", PStr "Invalid key")]))))
              "delhi") as [_ H].
  destruct (H eq_refl) as [_ Hresp].
  destruct (Hresp _ eq_refl) as [_ Hok].
  destruct Hok as (_ & _ & Hpayload & _); [simpl; lia|].
  apply (Hpayload _ eq_refl). simpl. discriminate.
Defined.

(** ** Row extraction *)

(** C5, as the code has it.  From a reading that is an object whose optional
    fields are absent or well shaped, the row is built without an exception:
    the AQI is the [aqi] field or null, both coordinates are null when the
    geo pair is absent and its first two entries otherwise, and the
    timestamp is the [s] field of [time] or "N/A". *)
Theorem data_point_defaults (name : string) (payload : list (string * pyval)) :
  well_shaped payload = true →
  ∃ dp, data_point name (PDict payload) = Ret dp
        ∧ City dp = name
        ∧ AQI dp = default PNone (assoc "aqi" payload)
        ∧ (nested "city" "geo" payload = None →
           Latitude dp = PNone ∧ Longitude dp = PNone)
        ∧ (∀ lat lon rest,
             nested "city" "geo" payload = Some (PList (lat :: lon :: rest)) →
             Latitude dp = lat ∧ Longitude dp = lon)
        ∧ Timestamp dp = default (PStr "N/A") (nested "time" "s" payload).
Proof.
  unfold well_shaped, geo_shaped, nested, data_point. intros Hshape.
  apply andb_true_iff in Hshape as [Hcity Htime]. cbn.
  destruct (assoc "city" payload) as [[| | | | | |city]|]; try done; cbn.
  - destruct (assoc "geo" city) as [[| | | | |[|lat [|lon rest]]|]|];
      try done; cbn.
    + destruct (assoc "time" payload) as [[| | | | | |time]|]; try done; cbn;
        (eexists; split; [reflexivity|]; cbn;
         repeat split; try done; congruence).
    + destruct (assoc "time" payload) as [[| | | | | |time]|]; try done; cbn;
        (eexists; split; [reflexivity|]; cbn;
         repeat split; try done; congruence).
  - destruct (assoc "time" payload) as [[| | | | | |time]|]; try done; cbn;
      (eexists; split; [reflexivity|]; cbn; repeat split; try done).
Qed.

Lemma data_point_defaults_witness :
  data_point "Delhi" (PDict [("aqi", PInt 42)])
  = Ret {| City := "Delhi"; AQI := PInt 42; Latitude := PNone;
           Longitude := PNone; Timestamp := PStr "N/A" |}.
Proof.
  destruct (data_point_defaults "Delhi" [("aqi", PInt 42)] eq_refl)
    as (dp & -> & Hc & Ha & Hgeo & _ & Ht).
  destruct (Hgeo eq_refl) as [Hlat Hlon].
  destruct dp; simpl in *. by subst.
Defined.

(** C5 as stated fails: a successful, non-empty reading whose geo field is
    present but null makes the extraction raise, and the loop body lets the
    exception through. *)
Lemma data_point_raises_on_null_geo :
  truthy (PDict [("aqi", PInt 42); ("city", PDict [("geo", PNone)])]) = true
  ∧ data_point "Delhi"
      (PDict [("aqi", PInt 42); ("city", PDict [("geo", PNone)])])
    = Raise (Exn TypeError "'NoneType' object is not subscriptable")
  ∧ (visit_city (Some "t")
       (λ _, Ret (Response 200 ""
                    (Ret (PDict [("status", PStr "ok");
                                 ("data", PDict [("aqi", PInt 42);
                                                 ("city", PDict [("geo", PNone)])])]))))
       plain_repr "Delhi" "delhi" [] []).2
    = Raise (Exn TypeError "'NoneType' object is not subscriptable").
Proof. repeat split. Qed.

(** A string is indexed by code point: the one-letter text below is two
    bytes long, and has no entry 1. *)
Example accented_letter_has_one_entry :
  String.length "é" = 2%nat
  ∧ py_getitem_idx (PStr "é") 0 = Ret (PStr "é")
  ∧ py_getitem_idx (PStr "é") 1
    = Raise (Exn IndexError "string index out of range")
  ∧ py_getitem_idx (PStr "ab") 1 = Ret (PStr "b").
Proof. by repeat split. Qed.

(** ** Collector *)

Section CollectorProperties.

Variable API_TOKEN : option string.
Variable requests_get : string → outcome response.
Variable py_repr : pyval → string.

Local Abbreviation fetch := (get_aqi_data API_TOKEN requests_get).
Local Abbreviation fate_of := (city_fate API_TOKEN requests_get py_repr).
Local Abbreviation visit := (visit_city API_TOKEN requests_get py_repr).
Local Abbreviation loop := (fetch_loop API_TOKEN requests_get py_repr).

(** The fetcher returns, and all it does to the world is at most one
    request. *)
Lemma get_aqi_data_total (city_name : string) :
  ∃ p, fetch city_name
       = (if token_missing API_TOKEN then []
          else [EvHttpGet (feed_url API_TOKEN city_name)], Ret p).
Proof.
  unfold get_aqi_data.
  destruct (token_missing API_TOKEN); [by eexists|].
  cbn. destruct (requests_get _) as [r|ex]; cbn.
  2:{ destruct (is_request_exception ex); by eexists. }
  unfold raise_for_status. destruct (_ && _); cbn; [by eexists|].
  destruct (json r) as [data|ex]; cbn.
  2:{ destruct (is_request_exception ex); by eexists. }
  destruct data; cbn; try by eexists.
  destruct (py_eq_str _ _); cbn; [|by eexists].
  destruct (assoc "data" d); cbn; by eexists.
Qed.

Lemma get_aqi_data_unconfigured (city_name : string) :
  token_missing API_TOKEN = true →
  fetch city_name
  = ([], Ret (PNone,
              PStr "API Token not configured. Please set the AQI_API_TOKEN environment variable.")).
Proof. unfold get_aqi_data. by intros ->. Qed.

(** One city changes the two lists according to its fate. *)
Lemma visit_city_fate (name api : string) (all_data : list DataPoint)
    (errors : list string) :
  visit name api all_data errors
  = (if token_missing API_TOKEN then []
     else [EvHttpGet (feed_url API_TOKEN api)],
     match fate_of (name, api) with
     | Failed entry => Ret (all_data, errors ++ [entry])
     | Fetched dp => Ret (all_data ++ [dp], errors)
     | Skipped => Ret (all_data, errors)
     | Crashed e => Raise e
     end).
Proof.
  unfold visit_city, city_fate. simpl.
  destruct (get_aqi_data_total api) as [[aqi_data error] ->]. cbn.
  destruct (truthy error); cbn; [by rewrite app_nil_r|].
  destruct (truthy aqi_data); cbn; [|by rewrite app_nil_r].
  destruct (data_point name aqi_data); cbn; by rewrite app_nil_r.
Qed.

(** The loop visits every city in the order of the table, whatever the
    fate of the cities before it, as long as no loop body raises. *)
Local Abbreviation crashed := (city_crashed API_TOKEN requests_get py_repr).

Lemma fetch_loop_spec (items : list (string * string)) :
  (∀ c, c ∈ items → ¬ crashed c) →
  ∀ total i all_data errors,
  ∃ t, loop total i items all_data errors
       = (t, Ret (all_data ++ omap (fetched_row ∘ fate_of) items,
                  errors ++ omap (failure_entry ∘ fate_of) items))
       ∧ progress_texts t
         = map (λ c, "Fetching data for " +:+ c.1 +:+ "...") items
       ∧ sleeps t = length items
       ∧ st_errors t = []
       ∧ http_gets t
         = (if token_missing API_TOKEN then []
            else map (λ c, feed_url API_TOKEN c.2) items).
Proof.
  induction items as [|[name api] rest IH]; intros Hok total i all_data errors.
  - exists []. simpl. rewrite !app_nil_r.
    by destruct (token_missing API_TOKEN).
  - assert (Hrest : ∀ c, c ∈ rest → ¬ crashed c)
      by (intros c Hc; apply Hok; by right).
    assert (Hhead : ¬ crashed (name, api)) by (apply Hok; by left).
    cbn [fetch_loop]. rewrite visit_city_fate.
    unfold city_crashed in Hhead.
    destruct (fate_of (name, api)) as [entry|dp| |e] eqn:Hfate;
      [| | |by destruct Hhead; eexists].
    all: cbn [mbind M_bind emit].
    all: match goal with
         | |- context [fetch_loop _ _ _ _ _ _ ?d ?e] =>
             destruct (IH Hrest total (S i) d e)
               as (t & -> & Hprog & Hsleep & Herr & Hget)
         end.
    all: eexists; split;
      [cbn [omap list_omap compose]; rewrite Hfate; cbn;
       rewrite <- ?app_assoc; reflexivity|].
    all: unfold progress_texts, sleeps, st_errors, http_gets in *.
    all: destruct (token_missing API_TOKEN); cbn;
      rewrite ?Hprog, ?Hsleep, ?Herr, ?Hget; done.
Qed.

(** The fatal message is emitted by no loop, whatever its cities do. *)
Lemma fetch_loop_no_fatal (items : list (string * string)) :
  ∀ total i all_data errors,
    st_errors (loop total i items all_data errors).1 = [].
Proof.
  induction items as [|[name api] rest IH]; intros total i all_data errors;
    [done|].
  cbn [fetch_loop]. rewrite visit_city_fate.
  destruct (fate_of (name, api)); cbn [mbind M_bind emit].
  4: by destruct (token_missing API_TOKEN).
  all: match goal with
       | |- context [fetch_loop _ _ _ _ _ _ ?d ?e] =>
           specialize (IH total (S i) d e);
           destruct (fetch_loop API_TOKEN requests_get py_repr
                       total (S i) rest d e) as [t r]
       end.
  all: unfold st_errors in *; simpl in IH;
    destruct (token_missing API_TOKEN); cbn; by rewrite IH.
Qed.

Lemma outcome_bind_Ret {A B} (m : outcome A) (k : A → outcome B) (b : B) :
  m ≫= k = Ret b → ∃ a, m = Ret a ∧ k a = Ret b.
Proof. destruct m; cbn; [eauto|discriminate]. Qed.

Lemma data_point_City (name : string) (aqi_data : pyval) (dp : DataPoint) :
  data_point name aqi_data = Ret dp → City dp = name.
Proof.
  unfold data_point. intros H.
  repeat (apply outcome_bind_Ret in H as (? & _ & H)).
  by injection H as <-.
Qed.

Lemma fetched_City (c : string * string) (dp : DataPoint) :
  fate_of c = Fetched dp → City dp = c.1.
Proof.
  unfold city_fate.
  destruct (fetch c.2).2 as [[aqi_data error]|]; [|done].
  destruct (truthy error); [done|].
  destruct (truthy aqi_data); [|done].
  destruct (data_point c.1 aqi_data) eqn:Hdp; [|done].
  intros [= <-]. by eapply data_point_City.
Qed.

Lemma omap_failed_length (items : list (string * string)) :
  length (omap (failure_entry ∘ fate_of) items)
  = count_where (λ c, is_failed (fate_of c)) items.
Proof.
  unfold count_where. induction items as [|c rest IH]; [done|].
  cbn. destruct (fate_of c); cbn; by rewrite ?IH.
Qed.

Lemma omap_fetched_length (items : list (string * string)) :
  length (omap (fetched_row ∘ fate_of) items)
  = count_where (λ c, is_fetched (fate_of c)) items.
Proof.
  unfold count_where. induction items as [|c rest IH]; [done|].
  cbn. destruct (fate_of c); cbn; by rewrite ?IH.
Qed.

Lemma omap_failed_entries (items : list (string * string)) :
  Forall2 (λ c entry, ∃ msg, entry = "Could not fetch data for " +:+ c.1
                                     +:+ ": " +:+ msg)
    (List.filter (λ c, is_failed (fate_of c)) items)
    (omap (failure_entry ∘ fate_of) items).
Proof.
  induction items as [|c rest IH]; [constructor|].
  cbn. destruct (fate_of c) eqn:Hfate; cbn; try done.
  constructor; [|done].
  unfold city_fate in Hfate.
  destruct (fetch c.2).2 as [[aqi_data error]|]; [|done].
  destruct (truthy error).
  - injection Hfate as <-. by eexists.
  - destruct (truthy aqi_data); [|done].
    by destruct (data_point c.1 aqi_data).
Qed.

Lemma omap_fetched_cities (items : list (string * string)) :
  map City (omap (fetched_row ∘ fate_of) items)
  = map fst (List.filter (λ c, is_fetched (fate_of c)) items).
Proof.
  induction items as [|c rest IH]; [done|].
  cbn. destruct (fate_of c) eqn:Hfate; cbn; try done.
  rewrite IH. f_equal. by apply fetched_City.
Qed.

(** Two tests that never pass together and whose counts add up to the
    length of the list leave no entry out. *)
Lemma count_where_le {A} (p q : A → bool) (l : list A) :
  (∀ x, p x && q x = false) →
  (count_where p l + count_where q l ≤ length l)%nat.
Proof.
  intros Hex. unfold count_where. induction l as [|x l IH]; [done|].
  specialize (Hex x). cbn. destruct (p x), (q x); cbn in *; try done; lia.
Qed.

Lemma count_where_cover {A} (p q : A → bool) (l : list A) :
  (∀ x, p x && q x = false) →
  (count_where p l + count_where q l = length l)%nat →
  ∀ x, x ∈ l → p x || q x = true.
Proof.
  intros Hex. induction l as [|y l IH]; intros Hsum x Hin.
  { by apply elem_of_nil in Hin. }
  pose proof (count_where_le p q l Hex) as Hle.
  unfold count_where in *. cbn in Hsum.
  apply elem_of_cons in Hin as [->|Hin].
  - destruct (p y), (q y); cbn in *; try done; lia.
  - apply IH; [|done].
    specialize (Hex y). destruct (p y), (q y); cbn in *; try done; lia.
Qed.

Lemma imap_rows_cells (g : nat → nat) (all_data : list DataPoint) :
  map cells (imap (λ i dp, {| label := g i; cells := dp |}) all_data)
  = all_data.
Proof.
  revert g. induction all_data as [|dp rest IH]; intros g; [done|].
  cbn. f_equal. apply (IH (g ∘ S)).
Qed.

Lemma pd_DataFrame_cells (all_data : list DataPoint) :
  map cells (df_rows (pd_DataFrame all_data)) = all_data.
Proof. apply (imap_rows_cells id). Qed.

Lemma pd_DataFrame_length (all_data : list DataPoint) :
  length (df_rows (pd_DataFrame all_data)) = length all_data.
Proof. unfold pd_DataFrame. cbn. apply length_imap. Qed.

(** The collector on a table none of whose cities makes the loop body
    raise. *)
Lemma fetch_all_spec (cities : list (string * string)) :
  (∀ c, c ∈ cities → ¬ crashed c) →
  ∃ t, fetch_all API_TOKEN requests_get py_repr cities
       = (t, Ret (match omap (fetched_row ∘ fate_of) cities with
                  | [] => if token_missing API_TOKEN
                          then (pd_DataFrame [], [])
                          else (pd_DataFrame [],
                                omap (failure_entry ∘ fate_of) cities)
                  | all_data =>
                      (pd_DataFrame all_data,
                       omap (failure_entry ∘ fate_of) cities)
                  end))
       ∧ progress_texts t
         = map (λ c, "Fetching data for " +:+ c.1 +:+ "...") cities
       ∧ sleeps t = length cities
       ∧ st_errors t
         = match omap (fetched_row ∘ fate_of) cities with
           | [] => if token_missing API_TOKEN then [FATAL] else []
           | _ => []
           end
       ∧ http_gets t
         = (if token_missing API_TOKEN then []
            else map (λ c, feed_url API_TOKEN c.2) cities).
Proof.
  intros Hok. unfold fetch_all.
  destruct (fetch_loop_spec cities Hok (length cities) 0%nat [] [])
    as (t & Hrun & Hprog & Hsleep & Herr & Hget).
  cbn [mbind M_bind emit]. rewrite Hrun. cbn [app].
  unfold progress_texts, sleeps, st_errors, http_gets in *.
  destruct (omap (fetched_row ∘ fate_of) cities) as [|dp rows];
    cbn [andb]; [destruct (token_missing API_TOKEN)|];
    cbn [mbind M_bind emit mret M_ret];
    (eexists; split; [reflexivity|]);
    cbn [omap list_omap]; rewrite !omap_app, ?Hprog, ?Hsleep, ?Herr, ?Hget;
    cbn; rewrite ?app_nil_r, ?length_app; cbn;
    repeat split; try done; lia.
Qed.

(** With a token the collector never reports the fatal condition. *)
Lemma fetch_all_no_fatal (cities : list (string * string)) :
  token_missing API_TOKEN = false →
  st_errors (fetch_all API_TOKEN requests_get py_repr cities).1 = [].
Proof.
  intros Htok. unfold fetch_all. cbn [mbind M_bind emit].
  pose proof (fetch_loop_no_fatal cities (length cities) 0%nat [] [])
    as Hloop.
  destruct (fetch_loop API_TOKEN requests_get py_repr
              (length cities) 0 cities [] []) as [t [[all_data errors]|e]];
    cbn in Hloop |- *; [|done].
  rewrite Htok, andb_false_r. cbn.
  unfold st_errors in *. by rewrite omap_app, Hloop.
Qed.

(** The batch in terms of the fate of the cities in the loop: three failure
    entries and nine rows, in the order of the configuration. *)
Lemma partial_failure_by_fate :
  count_where (λ c, is_failed (fate_of c)) CITIES = 3%nat →
  count_where (λ c, is_fetched (fate_of c)) CITIES = 9%nat →
  ∃ t df errors,
    fetch_all_cities_data API_TOKEN requests_get py_repr
    = (t, Ret (df, errors))
    ∧ length (df_rows df) = 9%nat
    ∧ length errors = 3%nat
    ∧ Forall2 (λ c entry, ∃ msg, entry = "Could not fetch data for " +:+ c.1
                                       +:+ ": " +:+ msg)
        (List.filter (λ c, is_failed (fate_of c)) CITIES) errors
    ∧ map (λ r, City (cells r)) (df_rows df)
      = map fst (List.filter (λ c, is_fetched (fate_of c)) CITIES)
    ∧ progress_texts t
      = map (λ c, "Fetching data for " +:+ c.1 +:+ "...") CITIES.
Proof.
  intros Hfail Hsucc.
  assert (Hcover : ∀ c, c ∈ CITIES →
                        is_failed (fate_of c) || is_fetched (fate_of c) = true).
  { apply count_where_cover.
    - intros c. by destruct (fate_of c).
    - rewrite Hfail, Hsucc. reflexivity. }
  assert (Hok : ∀ c, c ∈ CITIES → ¬ crashed c).
  { intros c Hc [e He]. specialize (Hcover c Hc). by rewrite He in Hcover. }
  destruct (fetch_all_spec CITIES Hok) as (t & Hrun & Hprog & _).
  pose proof (omap_fetched_length CITIES) as Hrows.
  pose proof (omap_failed_length CITIES) as Herrs.
  pose proof (omap_fetched_cities CITIES) as Hnames.
  rewrite Hsucc in Hrows. rewrite Hfail in Herrs.
  unfold fetch_all_cities_data. rewrite Hrun.
  destruct (omap (fetched_row ∘ fate_of) CITIES) as [|dp rows] eqn:Hdata;
    [done|].
  eexists _, _, _. split; [reflexivity|].
  split; [by rewrite pd_DataFrame_length|].
  split; [done|].
  split; [apply omap_failed_entries|].
  split; [|done].
  transitivity (map City (map cells (df_rows (pd_DataFrame (dp :: rows))))).
  - by rewrite map_map.
  - by rewrite pd_DataFrame_cells.
Qed.


End CollectorProperties.

Example partial_failure_entries :
  (fetch_all_cities_data (Some "t") sample_network plain_repr).2
  = Ret (pd_DataFrame
           (map (λ name, {| City := name; AQI := PInt 42;
                            Latitude := PFloat (FFin (57 # 2));
                            Longitude := PFloat (FFin (77 # 1));
                            Timestamp := PStr "2024-01-01 10:00:00" |})
              ["Mumbai"; "Kolkata"; "Chennai"; "Bengaluru"; "Hyderabad";
               "Ahmedabad"; "Jaipur"; "Lucknow"; "Bhopal"]),
         ["Could not fetch data for Delhi: Network error: timed out";
          "Could not fetch data for Pune: Network error: timed out";
          "Could not fetch data for Patna: Network error: timed out"]).
Proof. reflexivity. Qed.

Section PartialFailure.

Variable API_TOKEN : option string.
Variable requests_get : string → outcome response.
Variable py_repr : pyval → string.

Local Abbreviation fate_of := (city_fate API_TOKEN requests_get py_repr).
Local Abbreviation failed := (fetch_failed API_TOKEN requests_get).
Local Abbreviation read := (fetch_read API_TOKEN requests_get).

(** From an object whose optional fields are absent or well shaped the row
    is built. *)
Lemma well_shaped_row (name : string) (payload : list (string * pyval)) :
  well_shaped payload = true → ∃ dp, data_point name (PDict payload) = Ret dp.
Proof.
  unfold well_shaped, geo_shaped, data_point. intros Hshape.
  apply andb_true_iff in Hshape as [Hcity Htime]. cbn.
  destruct (assoc "city" payload) as [[| | | | | |city]|]; try done; cbn.
  - destruct (assoc "geo" city) as [[| | | | |[|lat [|lon rest]]|]|];
      try done; cbn;
      destruct (assoc "time" payload) as [[| | | | | |time]|]; try done; cbn;
      by eexists.
  - destruct (assoc "time" payload) as [[| | | | | |time]|]; try done; cbn;
      by eexists.
Qed.

Lemma fetch_failed_fate (c : string * string) :
  failed c = is_failed (fate_of c).
Proof.
  unfold fetch_failed, city_fate.
  destruct (get_aqi_data API_TOKEN requests_get c.2).2 as [[aqi_data error]|];
    [|done].
  destruct (truthy error); [done|].
  destruct (truthy aqi_data); [|done].
  by destruct (data_point c.1 aqi_data).
Qed.

Lemma fetch_read_fate (c : string * string) :
  read c = true → is_fetched (fate_of c) = true.
Proof.
  unfold fetch_read, city_fate.
  destruct (get_aqi_data API_TOKEN requests_get c.2).2 as [[aqi_data error]|];
    [|done].
  destruct aqi_data as [| | | | | |payload]; try done.
  intros Hread.
  apply andb_true_iff in Hread as [Hread Hshape].
  apply andb_true_iff in Hread as [Herror Hdata].
  apply negb_true_iff in Herror. rewrite Herror, Hdata.
  by destruct (well_shaped_row c.1 payload Hshape) as [dp ->].
Qed.

(** C7, as the code has it.  When the fetches of three of the twelve
    configured cities return a truthy error message and the fetches of the
    other nine return no error and a non-empty reading object whose optional
    fields are absent or well shaped, the collector returns a batch of nine
    rows and three failure entries; each entry carries the display name of
    its city, entries and rows stand in the order of the configuration, and
    the progress of all twelve cities is reported in that order. *)
Theorem partial_failure_of_fetches :
  count_where (fetch_failed API_TOKEN requests_get) CITIES = 3%nat →
  count_where (fetch_read API_TOKEN requests_get) CITIES = 9%nat →
  ∃ t df errors,
    fetch_all_cities_data API_TOKEN requests_get py_repr
    = (t, Ret (df, errors))
    ∧ length (df_rows df) = 9%nat
    ∧ length errors = 3%nat
    ∧ Forall2 (λ c entry, ∃ msg, entry = "Could not fetch data for " +:+ c.1
                                       +:+ ": " +:+ msg)
        (List.filter (fetch_failed API_TOKEN requests_get) CITIES) errors
    ∧ map (λ r, City (cells r)) (df_rows df)
      = map fst (List.filter (fetch_read API_TOKEN requests_get) CITIES)
    ∧ progress_texts t
      = map (λ c, "Fetching data for " +:+ c.1 +:+ "...") CITIES.
Proof.
  intros Hfail Hread.
  assert (Hex : ∀ c, failed c && read c = false).
  { intros c. destruct (read c) eqn:Hr; [|by rewrite andb_false_r].
    apply fetch_read_fate in Hr. rewrite fetch_failed_fate.
    by destruct (fate_of c). }
  assert (Hcover : ∀ c, c ∈ CITIES → failed c || read c = true).
  { apply (count_where_cover _ _ CITIES Hex). by rewrite Hfail, Hread. }
  assert (Hsame : ∀ c, In c CITIES → is_fetched (fate_of c) = read c).
  { intros c Hc. apply list_elem_of_In, Hcover in Hc.
    destruct (read c) eqn:Hr; [by apply fetch_read_fate|].
    rewrite orb_false_r, fetch_failed_fate in Hc. by destruct (fate_of c). }
  assert (Hfilter : List.filter (λ c, is_fetched (fate_of c)) CITIES
                    = List.filter read CITIES)
    by (by apply filter_ext_in).
  assert (Hfilter' : List.filter (λ c, is_failed (fate_of c)) CITIES
                     = List.filter failed CITIES).
  { apply filter_ext. intros c. by rewrite fetch_failed_fate. }
  destruct (partial_failure_by_fate API_TOKEN requests_get py_repr)
    as (t & df & errors & Hrun & Hrows & Herrs & Hentries & Hnames & Hprog).
  - unfold count_where. by rewrite Hfilter'.
  - unfold count_where. by rewrite Hfilter.
  - rewrite Hfilter in Hnames. rewrite Hfilter' in Hentries.
    by exists t, df, errors.
Qed.

End PartialFailure.

Lemma partial_failure_of_fetches_witness :
  ∃ t df errors,
    fetch_all_cities_data (Some "t") sample_network plain_repr
    = (t, Ret (df, errors))
    ∧ length (df_rows df) = 9%nat ∧ length errors = 3%nat.
Proof.
  destruct (partial_failure_of_fetches (Some "t") sample_network plain_repr)
    as (t & df & errors & Hrun & Hrows & Herrs & _);
    [reflexivity | reflexivity |].
  by exists t, df, errors.
Defined.

(** C7 as stated fails.  On the first network the fetches of three cities
    fail, with an empty message, and those of the other nine return a
    reading: the batch has nine rows and no failure entry.  On the second
    the fetches of three cities fail with a timeout and those of the other
    nine return a reading, one of them with a null geo field: the collector
    raises and there is no batch. *)
Lemma partial_failure_dropped_or_raised :
  Forall (λ api, (get_aqi_data (Some "t") mute_network api).2
                 = Ret (PNone, PStr ""))
    ["delhi"; "pune"; "patna"]
  ∧ Forall (λ api, (get_aqi_data (Some "t") mute_network api).2
                   = Ret (sample_reading, PNone))
      ["mumbai"; "kolkata"; "chennai"; "bangalore"; "hyderabad"; "ahmedabad";
       "jaipur"; "lucknow"; "bhopal"]
  ∧ (∃ df, (fetch_all_cities_data (Some "t") mute_network plain_repr).2
           = Ret (df, [])
           ∧ length (df_rows df) = 9%nat)
  ∧ Forall (λ api, (get_aqi_data (Some "t") null_geo_network api).2
                   = Ret (PNone, PStr "Network error: timed out"))
      ["delhi"; "pune"; "patna"]
  ∧ (get_aqi_data (Some "t") null_geo_network "kolkata").2
    = Ret (null_geo_reading, PNone)
  ∧ Forall (λ api, (get_aqi_data (Some "t") null_geo_network api).2
                   = Ret (sample_reading, PNone))
      ["mumbai"; "chennai"; "bangalore"; "hyderabad"; "ahmedabad";
       "jaipur"; "lucknow"; "bhopal"]
  ∧ (fetch_all_cities_data (Some "t") null_geo_network plain_repr).2
    = Raise (Exn TypeError "'NoneType' object is not subscriptable").
Proof.
  split; [by repeat constructor|]. split; [by repeat constructor|].
  split; [eexists; split; reflexivity|].
  split; [by repeat constructor|]. split; [reflexivity|].
  split; [by repeat constructor|]. reflexivity.
Qed.



(** ** Configuration *)

(** C10.  Whatever the process environment holds when the module is loaded,
    [API_TOKEN] is the literal token, which is not empty; so every call of
    the fetcher goes on to the request instead of returning the
    not-configured failure, and no run of the collector reports the fatal
    configuration error. *)
Theorem token_always_configured (environ : gmap string string)
    (requests_get : string → outcome response) (py_repr : pyval → string) :
  module_API_TOKEN environ = Some hardcoded_token
  ∧ token_missing (module_API_TOKEN environ) = false
  ∧ (∀ city_name,
       (get_aqi_data (module_API_TOKEN environ) requests_get city_name).1
       = [EvHttpGet (feed_url (Some hardcoded_token) city_name)])
  ∧ st_errors
      (fetch_all_cities_data (module_API_TOKEN environ) requests_get py_repr).1
    = [].
Proof.
  assert (Htok : module_API_TOKEN environ = Some hardcoded_token).
  { unfold module_API_TOKEN, environ_after_load. apply lookup_insert_eq. }
  rewrite Htok. split; [done|]. split; [done|]. split.
  - intros city_name.
    destruct (get_aqi_data_total (Some hardcoded_token) requests_get city_name)
      as [p ->].
    reflexivity.
  - by apply fetch_all_no_fatal.
Qed.

(** ** Normalization *)

Section NormalizerProperties.

Variable convert_object : pyval → option number.

Local Abbreviation normalize' := (normalize convert_object).
Local Abbreviation coerce :=
  (λ r, set_AQI (to_numeric convert_object (AQI (cells r))) r).

Lemma keep_filter {A} (p : A → bool) (l : list A) :
  keep (map p l) l = List.filter p l.
Proof. induction l as [|x l IH]; [done|]. cbn. by rewrite IH. Qed.

Lemma filter_sublist_of {A} (p : A → bool) (l : list A) :
  List.filter p l `sublist_of` l.
Proof.
  induction l as [|x l IH]; [constructor|].
  cbn. destruct (p x); by constructor.
Qed.

Local Abbreviation cleaned' := (cleaned convert_object).

Lemma cleaned_rows (f : DataFrame) :
  df_rows (cleaned' f) = map coerce (List.filter complete (df_rows f)).
Proof. unfold cleaned, coerce_AQI, dropna_frame. cbn. by rewrite keep_filter. Qed.

(** The block rewrites the object at [df] and nothing else. *)
Lemma normalize_unfold (df : positive) (σ : store) (f : DataFrame) :
  σ !! df = Some f →
  normalize' df σ
  = match map (λ r, get_aqi_category (AQI (cells r))) (df_rows (cleaned' f)) with
    | [] => (<[df := cleaned' f]> σ,
             Raise (Exn ValueError
                      "not enough values to unpack (expected 2, got 0)"))
    | cats => (<[df := set_categories cats (cleaned' f)]> σ, Ret tt)
    end.
Proof.
  intros Hdf. unfold normalize.
  rewrite (alter_alt_Some dropna_frame σ df f Hdf).
  rewrite (alter_alt_Some (coerce_AQI convert_object) _ df (dropna_frame f))
    by apply lookup_insert_eq.
  rewrite insert_insert_eq, lookup_insert_eq. fold (cleaned' f).
  destruct (map _ (df_rows (cleaned' f))); [done|].
  by rewrite insert_insert_eq.
Qed.

Lemma normalize_lookup (df : positive) (σ : store) (f : DataFrame) :
  σ !! df = Some f →
  ∃ out, (normalize' df σ).1 !! df = Some out
         ∧ df_rows out = df_rows (cleaned' f)
         ∧ ((normalize' df σ).2 = Ret tt ↔ df_rows out ≠ [])
         ∧ ((normalize' df σ).2 = Ret tt →
            Category out
            = Some (map (λ r, (get_aqi_category (AQI (cells r))).1) (df_rows out))
            ∧ Color out
              = Some (map (λ r, (get_aqi_category (AQI (cells r))).2) (df_rows out))).
Proof.
  intros Hdf. rewrite (normalize_unfold df σ f Hdf).
  destruct (map _ (df_rows (cleaned' f))) as [|c cats] eqn:Hcats.
  - apply map_eq_nil in Hcats.
    exists (cleaned' f). cbn [fst snd]. rewrite lookup_insert_eq, Hcats. by repeat split.
  - exists (set_categories (c :: cats) (cleaned' f)). cbn [fst snd].
    rewrite lookup_insert_eq. split; [done|]. split; [done|].
    change (df_rows (set_categories (c :: cats) (cleaned' f)))
      with (df_rows (cleaned' f)).
    split.
    + split; [|done]. intros _ Hnil. by rewrite Hnil in Hcats.
    + intros _. cbn [Category Color set_categories].
      rewrite <- Hcats, !map_map. done.
Qed.

Lemma untouched_coerce (rows : list Row) :
  map untouched (map coerce rows) = map untouched rows.
Proof. rewrite map_map. by apply map_ext. Qed.

(** C8.  The rows the block leaves in the table are the complete rows of
    the input, in their input order, with the AQI coerced and every other
    cell and the label as they were: there are no more of them than before
    and they form a subsequence of the input rows.  The block runs to its
    end exactly when at least one row is left. *)
Theorem normalize_subsequence (df : positive) (σ : store) (f : DataFrame) :
  σ !! df = Some f →
  ∃ out, (normalize' df σ).1 !! df = Some out
         ∧ df_rows out = map coerce (List.filter complete (df_rows f))
         ∧ (length (df_rows out) ≤ length (df_rows f))%nat
         ∧ map untouched (df_rows out) `sublist_of` map untouched (df_rows f)
         ∧ ((normalize' df σ).2 = Ret tt ↔ df_rows out ≠ []).
Proof.
  intros Hdf.
  destruct (normalize_lookup df σ f Hdf) as (out & Hout & Hrows & Hret & _).
  rewrite cleaned_rows in Hrows.
  assert (Hsub : map untouched (df_rows out)
                 `sublist_of` map untouched (df_rows f)).
  { rewrite Hrows, untouched_coerce.
    apply fmap_sublist, filter_sublist_of. }
  exists out. repeat split; try done; try apply Hret.
  apply sublist_length in Hsub. by rewrite !length_map in Hsub.
Qed.

(** C6, as the code has it.  The block works on the object [df] is bound
    to: afterwards that same address holds the cleaned rows (and, when the
    block ran to its end, the two derived columns), every other object of
    the store is as it was, and no object has been created. *)
Theorem normalize_in_place (df : positive) (σ : store) (f : DataFrame) :
  σ !! df = Some f →
  dom (normalize' df σ).1 = dom σ
  ∧ (∀ l, l ≠ df → (normalize' df σ).1 !! l = σ !! l)
  ∧ ∃ out, (normalize' df σ).1 !! df = Some out
           ∧ df_rows out = map coerce (List.filter complete (df_rows f))
           ∧ ((normalize' df σ).2 = Ret tt →
              Category out
              = Some (map (λ r, (get_aqi_category (AQI (cells r))).1)
                        (df_rows out))
              ∧ Color out
                = Some (map (λ r, (get_aqi_category (AQI (cells r))).2)
                          (df_rows out))).
Proof.
  intros Hdf. split; [|split].
  - rewrite (normalize_unfold df σ f Hdf).
    destruct (map _ (df_rows (cleaned' f))); cbn [fst];
      by apply dom_insert_lookup_L.
  - intros l Hl. rewrite (normalize_unfold df σ f Hdf).
    destruct (map _ (df_rows (cleaned' f))); cbn [fst];
      by apply lookup_insert_ne.
  - destruct (normalize_lookup df σ f Hdf) as (out & Hout & Hrows & _ & Hcols).
    rewrite cleaned_rows in Hrows. by exists out.
Qed.

(** X19.  Every row left in the table has both coordinates, and an AQI
    that is a number or NaN. *)
Lemma normalize_rows_located (df : positive) (σ : store) (f out : DataFrame) :
  σ !! df = Some f → (normalize' df σ).1 !! df = Some out →
  ∀ r, r ∈ df_rows out →
       isna (Latitude (cells r)) = false
       ∧ isna (Longitude (cells r)) = false
       ∧ is_numeric (AQI (cells r)) = true.
Proof.
  intros Hdf Hout r Hr.
  destruct (normalize_lookup df σ f Hdf) as (out' & Hout' & Hrows & _).
  assert (out' = out) as -> by congruence.
  rewrite Hrows, cleaned_rows in Hr.
  apply list_elem_of_In, in_map_iff in Hr as (r0 & <- & Hr0).
  apply filter_In in Hr0 as [_ Hcomplete].
  unfold complete in Hcomplete.
  apply andb_true_iff in Hcomplete as [Hc Hlon].
  apply andb_true_iff in Hc as [_ Hlat].
  apply negb_true_iff in Hlat, Hlon. cbn.
  repeat split; try done.
  unfold to_numeric.
  destruct (AQI (cells r0)); try done;
    by destruct (convert_object _) as [[]|].
Qed.

(** C2 on a failing input.  A station that reports its AQI as a dash and
    has coordinates passes the null filter, because the dash is not null;
    the coercion then turns the dash into NaN, and the row stays in the
    table with a NaN AQI and the category Unknown. *)
Theorem normalize_keeps_unreadable_AQI (df : positive) (σ : store) :
  convert_object (PStr "-") = None →
  σ !! df = Some dash_station →
  ∃ out, (normalize' df σ).1 !! df = Some out
         ∧ (normalize' df σ).2 = Ret tt
         ∧ map (λ r, (City (cells r), AQI (cells r))) (df_rows out)
           = [("Delhi", NaN)]
         ∧ isna NaN = true
         ∧ Category out = Some ["Unknown"]
         ∧ Color out = Some ["#808080"].
Proof.
  intros Hdash Hdf. rewrite (normalize_unfold df σ dash_station Hdf).
  unfold cleaned, coerce_AQI, dropna_frame, dash_station. cbn.
  rewrite Hdash. cbn. eexists. rewrite lookup_insert_eq.
  split; [reflexivity|]. by repeat split.
Qed.

(** The guard around the block: an empty table is left alone, any other
    goes through the block. *)
Lemma process_for_display_cases (df : positive) (σ : store) (f : DataFrame) :
  σ !! df = Some f →
  process_for_display convert_object df σ
  = match df_rows f with
    | [] => (σ, Ret tt)
    | _ => normalize' df σ
    end.
Proof.
  intros Hdf. unfold process_for_display, df_empty. rewrite Hdf.
  by destruct (df_rows f).
Qed.

End NormalizerProperties.

(** Evaluate the derived columns of a concrete table. *)
Ltac eval_categories :=
  match goal with
  | |- context [match ?m with [] => _ | _ :: _ => _ end] =>
      let v := eval vm_compute in m in change m with v
  end;
  cbn [fst snd].

Lemma normalize_subsequence_witness :
  ∃ out, (normalize decimal_converter 1 {[1%positive := one_incomplete]}).1
         !! 1%positive = Some out
         ∧ map (λ r, (label r, City (cells r))) (df_rows out)
           = [(0%nat, "Delhi"); (2%nat, "Kolkata")].
Proof.
  assert (Hdf : ({[1%positive := one_incomplete]} : store) !! 1%positive
                = Some one_incomplete) by reflexivity.
  destruct (normalize_subsequence decimal_converter 1 _ _ Hdf)
    as (out & Hout & Hrows & _).
  exists out. split; [done|]. by rewrite Hrows.
Defined.

(** With nothing to discard, the rows keep their input order. *)
Example normalize_keeps_order :
  ∃ out, (normalize decimal_converter 1 {[1%positive := three_cities]}).1
         !! 1%positive = Some out
         ∧ map (λ r, City (cells r)) (df_rows out) = ["Delhi"; "Mumbai"; "Kolkata"]
         ∧ Category out
           = Some ["Unhealthy"; "Moderate"; "Unhealthy for Sensitive Groups"].
Proof.
  assert (Hdf : ({[1%positive := three_cities]} : store) !! 1%positive
                = Some three_cities) by reflexivity.
  rewrite (normalize_unfold decimal_converter 1 _ _ Hdf). eval_categories.
  eexists. rewrite lookup_insert_eq. by split.
Qed.

Lemma normalize_in_place_witness :
  dom (normalize decimal_converter 1 {[1%positive := one_incomplete]}).1
  = dom ({[1%positive := one_incomplete]} : store).
Proof.
  assert (Hdf : ({[1%positive := one_incomplete]} : store) !! 1%positive
                = Some one_incomplete) by reflexivity.
  by destruct (normalize_in_place decimal_converter 1 _ _ Hdf) as [Hdom _].
Defined.

(** C6 as stated fails: after the block, the object that held the input
    batch holds two rows instead of three, and two more columns. *)
Lemma normalize_mutates_input :
  ({[1%positive := one_incomplete]} : store) !! 1%positive = Some one_incomplete
  ∧ length (df_rows one_incomplete) = 3%nat
  ∧ ∃ out, (normalize decimal_converter 1 {[1%positive := one_incomplete]}).1
           !! 1%positive = Some out
           ∧ out ≠ one_incomplete
           ∧ length (df_rows out) = 2%nat
           ∧ Category out = Some ["Unhealthy"; "Unhealthy for Sensitive Groups"].
Proof.
  assert (Hdf : ({[1%positive := one_incomplete]} : store) !! 1%positive
                = Some one_incomplete) by reflexivity.
  split; [done|]. split; [done|].
  rewrite (normalize_unfold decimal_converter 1 _ _ Hdf). eval_categories.
  eexists. rewrite lookup_insert_eq.
  split; [reflexivity|]. by repeat split.
Qed.

Lemma normalize_keeps_unreadable_AQI_witness :
  ∃ out, (normalize decimal_converter 1 {[1%positive := dash_station]}).1
         !! 1%positive = Some out
         ∧ map (λ r, AQI (cells r)) (df_rows out) = [NaN].
Proof.
  assert (Hdf : ({[1%positive := dash_station]} : store) !! 1%positive
                = Some dash_station) by reflexivity.
  destruct (normalize_keeps_unreadable_AQI decimal_converter 1 _ eq_refl Hdf)
    as (out & Hout & _ & Hrows & _).
  exists out. split; [done|].
  apply (f_equal (map snd)) in Hrows. by rewrite map_map in Hrows.
Defined.

(** * Further properties *)

(** ** Fetcher *)

Section FetcherEdgeCases.

Variable API_TOKEN : option string.
Variable requests_get : string → outcome response.

Local Abbreviation fetch := (get_aqi_data API_TOKEN requests_get).

(** X1.  One call of the fetcher sends at most one request: none without a
    token, and otherwise exactly one, to the feed of the city, whatever the
    answer is.  There is no retry. *)
Theorem get_aqi_data_one_request (city_name : string) :
  (get_aqi_data API_TOKEN requests_get city_name).1
  = if token_missing API_TOKEN then []
    else [EvHttpGet (feed_url API_TOKEN city_name)].
Proof.
  by destruct (get_aqi_data_total API_TOKEN requests_get city_name) as [p ->].
Qed.

(** X2.  The pair the fetcher returns never holds both a reading and an
    error: at least one of its two components is null. *)
Theorem get_aqi_data_one_slot_null (city_name : string) :
  ∃ d e, (get_aqi_data API_TOKEN requests_get city_name).2 = Ret (d, e)
         ∧ (d = PNone ∨ e = PNone).
Proof.
  unfold get_aqi_data.
  destruct (token_missing API_TOKEN); [eexists _, _; eauto|].
  cbn. destruct (requests_get _) as [r|ex]; cbn.
  2:{ destruct (is_request_exception ex); eexists _, _; eauto. }
  unfold raise_for_status. destruct (_ && _); cbn; [eexists _, _; eauto|].
  destruct (json r) as [data|ex]; cbn.
  2:{ destruct (is_request_exception ex); eexists _, _; eauto. }
  destruct data; cbn; try (eexists _, _; eauto; fail).
  destruct (py_eq_str _ _); cbn; [|eexists _, _; eauto].
  destruct (assoc "data" d); cbn; eexists _, _; eauto.
Qed.

(** What the fetcher makes of an answered request. *)
Lemma get_aqi_data_answer (city_name : string) (payload : list (string * pyval)) :
  token_missing API_TOKEN = false →
  answers requests_get (feed_url API_TOKEN city_name) payload →
  (fetch city_name).2
  = Ret (if py_eq_str (default PNone (assoc "status" payload)) "ok"
         then match assoc "data" payload with
              | Some reading => (reading, PNone)
              | None => (PNone, PStr "An unexpected error occurred: 'data'")
              end
         else (PNone, default (PStr "Unknown error from API.")
                        (assoc "data" payload))).
Proof.
  intros Htok (r & Hget & Hstatus & Hjson).
  unfold get_aqi_data. rewrite Htok. cbn. rewrite Hget. cbn.
  rewrite Hstatus. cbn. rewrite Hjson. cbn.
  unfold default.
  destruct (py_eq_str _ _); cbn; [|done].
  by destruct (assoc "data" payload).
Qed.

End FetcherEdgeCases.

(** ** Collector *)

Section CollectorEdgeCases.

Variable API_TOKEN : option string.
Variable requests_get : string → outcome response.
Variable py_repr : pyval → string.

Local Abbreviation fetch := (get_aqi_data API_TOKEN requests_get).
Local Abbreviation fate_of := (city_fate API_TOKEN requests_get py_repr).
Local Abbreviation crashed := (city_crashed API_TOKEN requests_get py_repr).
Local Abbreviation visit := (visit_city API_TOKEN requests_get py_repr).
Local Abbreviation loop := (fetch_loop API_TOKEN requests_get py_repr).
Local Abbreviation collect := (fetch_all API_TOKEN requests_get py_repr).
Local Abbreviation url_of := (λ c : string * string, feed_url API_TOKEN c.2).

(** An answer whose [data] field is present but falsy leaves no trace in
    the batch. *)
Lemma falsy_data_skipped (c : string * string) (payload : list (string * pyval))
    (v : pyval) :
  token_missing API_TOKEN = false →
  answers requests_get (url_of c) payload →
  assoc "data" payload = Some v → truthy v = false →
  fate_of c = Skipped.
Proof.
  intros Htok Hans Hdata Hv. unfold city_fate.
  rewrite (get_aqi_data_answer _ _ _ payload Htok Hans), Hdata. cbn.
  destruct (py_eq_str _ _); cbn; by rewrite Hv.
Qed.

(** X3.  When a station answers with a [data] field that is present but
    falsy (null, an empty object, an empty string, zero), the city adds
    neither a row nor a failure entry, whatever the status of the answer
    says: the reading is dropped without any diagnostic. *)
Theorem visit_city_silent_skip (name api : string)
    (payload : list (string * pyval)) (v : pyval)
    (all_data : list DataPoint) (errors : list string) :
  token_missing API_TOKEN = false →
  answers requests_get (feed_url API_TOKEN api) payload →
  assoc "data" payload = Some v → truthy v = false →
  visit name api all_data errors
  = ([EvHttpGet (feed_url API_TOKEN api)], Ret (all_data, errors)).
Proof.
  intros Htok Hans Hdata Hv. rewrite visit_city_fate, Htok.
  by rewrite (falsy_data_skipped (name, api) payload v).
Qed.

(** A loop that returns met no city on which its body raises. *)
Lemma fetch_loop_returns (items : list (string * string)) :
  ∀ total i all_data errors x,
    (loop total i items all_data errors).2 = Ret x →
    ∀ c, c ∈ items → ¬ crashed c.
Proof.
  induction items as [|[name api] rest IH];
    intros total i all_data errors x Hret c Hc.
  { by apply elem_of_nil in Hc. }
  cbn [fetch_loop] in Hret. rewrite visit_city_fate in Hret.
  destruct (fate_of (name, api)) as [entry|dp| |e] eqn:Hfate;
    cbn [mbind M_bind emit] in Hret; [| | |done].
  all: match type of Hret with
       | context [fetch_loop _ _ _ ?t ?j ?l ?d ?e] =>
           destruct (fetch_loop API_TOKEN requests_get py_repr t j l d e)
             as [tr r] eqn:Hloop
       end.
  all: cbn in Hret; subst r.
  all: apply elem_of_cons in Hc as [->|Hc];
    [intros [e He]; congruence|].
  all: eapply IH; [|done]; by rewrite Hloop.
Qed.

Lemma fetch_all_returns (cities : list (string * string))
    (x : DataFrame * list string) :
  (collect cities).2 = Ret x → ∀ c, c ∈ cities → ¬ crashed c.
Proof.
  unfold fetch_all. cbn [mbind M_bind emit]. intros Hret.
  destruct (fetch_loop API_TOKEN requests_get py_repr
              (length cities) 0 cities [] []) as [t [y|e]] eqn:Hloop;
    [|done].
  eapply fetch_loop_returns. by rewrite Hloop.
Qed.

(** X4.  Whenever the collector returns, the rows of the table and the
    failure entries together are at most as many as the configured cities:
    a city contributes one row, one failure entry or nothing. *)
Theorem collector_counts (cities : list (string * string)) (df : DataFrame)
    (errors : list string) :
  (collect cities).2 = Ret (df, errors) →
  (length (df_rows df) + length errors ≤ length cities)%nat.
Proof.
  intros Hret.
  destruct (fetch_all_spec API_TOKEN requests_get py_repr cities
              (fetch_all_returns cities _ Hret)) as (t & Hrun & _).
  rewrite Hrun in Hret. cbn in Hret.
  pose proof (count_where_le (λ c, is_failed (fate_of c))
                (λ c, is_fetched (fate_of c)) cities) as Hle.
  rewrite <- omap_failed_length, <- omap_fetched_length in Hle.
  assert (Hsum : (length (omap (failure_entry ∘ fate_of) cities)
                  + length (omap (fetched_row ∘ fate_of) cities)
                  ≤ length cities)%nat).
  { apply Hle. intros c. by destruct (fate_of c). }
  destruct (omap (fetched_row ∘ fate_of) cities) as [|dp rows].
  - destruct (token_missing API_TOKEN); injection Hret as <- <-; cbn; lia.
  - injection Hret as <- <-. rewrite pd_DataFrame_length. lia.
Qed.

(** X5.  Whenever the collector returns with a token configured, it has
    sent exactly one request per configured city, to the feed of that city
    and in the order of the configuration, and has paused once per city. *)
Theorem collector_requests_in_order (cities : list (string * string))
    (x : DataFrame * list string) :
  token_missing API_TOKEN = false →
  (collect cities).2 = Ret x →
  http_gets (collect cities).1 = map url_of cities
  ∧ sleeps (collect cities).1 = length cities.
Proof.
  intros Htok Hret.
  destruct (fetch_all_spec API_TOKEN requests_get py_repr cities
              (fetch_all_returns cities _ Hret))
    as (t & Hrun & _ & Hsleep & _ & Hget).
  rewrite Hrun, Htok in *. by split.
Qed.

(** The progress fractions of a loop none of whose bodies raises. *)
Lemma fetch_loop_steps (items : list (string * string)) :
  (∀ c, c ∈ items → ¬ crashed c) →
  ∀ total i all_data errors,
    progress_steps (loop total i items all_data errors).1
    = map (λ k, (k, total)) (seq (S i) (length items)).
Proof.
  induction items as [|[name api] rest IH]; intros Hok total i all_data errors;
    [done|].
  assert (Hrest : ∀ c, c ∈ rest → ¬ crashed c)
    by (intros c Hc; apply Hok; by right).
  assert (Hhead : ¬ crashed (name, api)) by (apply Hok; by left).
  cbn [fetch_loop]. rewrite visit_city_fate.
  unfold city_crashed in Hhead.
  destruct (fate_of (name, api)) as [entry|dp| |e] eqn:Hfate;
    [| | |by destruct Hhead; eexists].
  all: cbn [mbind M_bind emit].
  all: match goal with
       | |- context [fetch_loop _ _ _ ?t ?j ?l ?d ?e] =>
           specialize (IH Hrest t j d e);
           destruct (fetch_loop API_TOKEN requests_get py_repr t j l d e)
             as [tr r]
       end.
  all: unfold progress_steps in *; cbn [fst] in IH.
  all: destruct (token_missing API_TOKEN); cbn; by rewrite IH.
Qed.

(** X6.  Whenever the collector returns, the progress bar has been set to
    1/n, 2/n, ..., n/n in turn, n being the number of configured cities: it
    advances by one city at a time and is full after the last city. *)
Theorem collector_progress_steps (cities : list (string * string))
    (x : DataFrame * list string) :
  (collect cities).2 = Ret x →
  progress_steps (collect cities).1
  = map (λ k, (k, length cities)) (seq 1 (length cities)).
Proof.
  intros Hret.
  pose proof (fetch_loop_steps cities (fetch_all_returns cities _ Hret)
                (length cities) 0%nat [] []) as Hsteps.
  revert Hret. unfold fetch_all. cbn [mbind M_bind emit].
  destruct (fetch_loop API_TOKEN requests_get py_repr
              (length cities) 0 cities [] []) as [t [[all_data errors]|e]];
    [|done].
  intros _. cbn [fst] in Hsteps.
  unfold progress_steps in *. cbn [mbind M_bind].
  match goal with |- context [if ?b then _ else _] => destruct b end;
    cbn; rewrite !omap_app, Hsteps; cbn; by rewrite app_nil_r.
Qed.

(** A loop whose body raises on some city ends there. *)
Lemma fetch_loop_crash (before after : list (string * string))
    (c : string * string) (e : exn) :
  (∀ x, x ∈ before → ¬ crashed x) → fate_of c = Crashed e →
  ∀ total i all_data errors,
  ∃ t, loop total i (before ++ c :: after) all_data errors = (t, Raise e)
       ∧ progress_texts t
         = map (λ x, "Fetching data for " +:+ x.1 +:+ "...") before
       ∧ http_gets t
         = (if token_missing API_TOKEN then []
            else map url_of (before ++ [c])).
Proof.
  intros Hok Hcrash.
  induction before as [|[name api] rest IH]; intros total i all_data errors.
  - destruct c as [name api]. cbn [app fetch_loop].
    rewrite visit_city_fate, Hcrash. cbn [mbind M_bind].
    eexists. split; [reflexivity|].
    by destruct (token_missing API_TOKEN).
  - assert (Hrest : ∀ x, x ∈ rest → ¬ crashed x)
      by (intros x Hx; apply Hok; by right).
    assert (Hhead : ¬ crashed (name, api)) by (apply Hok; by left).
    cbn [app fetch_loop]. rewrite visit_city_fate.
    unfold city_crashed in Hhead.
    destruct (fate_of (name, api)) as [entry|dp| |e'] eqn:Hfate;
      [| | |by destruct Hhead; eexists].
    all: cbn [mbind M_bind emit].
    all: match goal with
         | |- context [fetch_loop _ _ _ ?t ?j _ ?d ?es] =>
             destruct (IH Hrest t j d es) as (tr & -> & Hprog & Hget)
         end.
    all: eexists; split; [reflexivity|].
    all: unfold progress_texts, http_gets in *.
    all: destruct (token_missing API_TOKEN); cbn; by rewrite ?Hprog, ?Hget.
Qed.

(** X7.  One reading from which the row cannot be built aborts the whole
    batch: the collector raises the exception of that city, the failure
    entries and rows gathered from the cities before it are lost with it,
    and the cities after it are never requested. *)
Theorem collector_stops_at_crash (before after : list (string * string))
    (c : string * string) (e : exn) :
  (∀ x, x ∈ before → ¬ crashed x) → fate_of c = Crashed e →
  (collect (before ++ c :: after)).2 = Raise e
  ∧ progress_texts (collect (before ++ c :: after)).1
    = map (λ x, "Fetching data for " +:+ x.1 +:+ "...") before
  ∧ http_gets (collect (before ++ c :: after)).1
    = (if token_missing API_TOKEN then [] else map url_of (before ++ [c])).
Proof.
  intros Hok Hcrash. unfold fetch_all. cbn [mbind M_bind emit].
  destruct (fetch_loop_crash before after c e Hok Hcrash
              (length (before ++ c :: after)) 0%nat [] [])
    as (t & -> & Hprog & Hget).
  cbn. by repeat split.
Qed.

(** The run of the collector when the network is down. *)
Lemma fetch_all_outage (cities : list (string * string)) :
  token_missing API_TOKEN = false →
  (∀ c, c ∈ cities →
        ∃ ex, requests_get (url_of c) = Raise ex
              ∧ is_request_exception ex = true) →
  ∃ errors,
    (collect cities).2 = Ret (pd_DataFrame [], errors)
    ∧ Forall2 (λ c entry,
                 ∃ ex, requests_get (url_of c) = Raise ex
                       ∧ entry = "Could not fetch data for " +:+ c.1
                                 +:+ ": Network error: " +:+ exn_text ex)
        cities errors
    ∧ st_errors (collect cities).1 = [].
Proof.
  intros Htok Hdown.
  assert (Hfate : ∀ c, c ∈ cities →
            ∃ ex, requests_get (url_of c) = Raise ex
                  ∧ fate_of c
                    = Failed ("Could not fetch data for " +:+ c.1
                              +:+ ": Network error: " +:+ exn_text ex)).
  { intros c Hc. destruct (Hdown c Hc) as (ex & Hget & Hreq).
    exists ex. split; [done|].
    unfold city_fate, get_aqi_data. rewrite Htok. cbn.
    rewrite Hget. cbn. by rewrite Hreq. }
  assert (Hok : ∀ c, c ∈ cities → ¬ crashed c).
  { intros c Hc [e He]. destruct (Hfate c Hc) as (ex & _ & Hf). congruence. }
  destruct (fetch_all_spec API_TOKEN requests_get py_repr cities Hok)
    as (t & Hrun & _ & _ & Herr & _).
  rewrite Hrun. cbn [fst snd]. clear Hrun Hok Hdown.
  assert (Hlists : omap (fetched_row ∘ fate_of) cities = []
                   ∧ Forall2 (λ c entry,
                        ∃ ex, requests_get (url_of c) = Raise ex
                              ∧ entry = "Could not fetch data for " +:+ c.1
                                        +:+ ": Network error: " +:+ exn_text ex)
                       cities (omap (failure_entry ∘ fate_of) cities)).
  { clear Herr. induction cities as [|c rest IH]; [by split|].
    destruct (Hfate c ltac:(by left)) as (ex & Hget & Hf).
    destruct IH as [IHrows IHerrs]; [intros x Hx; apply Hfate; by right|].
    cbn. rewrite Hf. cbn. split; [done|].
    constructor; [by exists ex|done]. }
  destruct Hlists as [Hrows Herrs]. rewrite Hrows, Htok in *.
  eexists. by repeat split.
Qed.

(** X8.  When every request fails with a request exception and a token is
    configured, the collector returns an empty table and one failure entry
    per city, in the order of the configuration, each naming its city and
    the network error; it does not report a configuration error. *)
Theorem collector_outage (cities : list (string * string)) :
  token_missing API_TOKEN = false →
  (∀ c, c ∈ cities →
        ∃ ex, requests_get (url_of c) = Raise ex
              ∧ is_request_exception ex = true) →
  ∃ errors,
    (collect cities).2 = Ret (pd_DataFrame [], errors)
    ∧ Forall2 (λ c entry,
                 ∃ ex, requests_get (url_of c) = Raise ex
                       ∧ entry = "Could not fetch data for " +:+ c.1
                                 +:+ ": Network error: " +:+ exn_text ex)
        cities errors
    ∧ st_errors (collect cities).1 = [].
Proof. apply fetch_all_outage. Qed.

(** X9.  When every station answers with a falsy [data] field and a token
    is configured, the collector returns an empty table and no failure
    entry at all, without reporting a configuration error: the returned
    pair is the one of a run without a token. *)
Theorem collector_silent_on_empty_answers (cities : list (string * string)) :
  token_missing API_TOKEN = false →
  (∀ c, c ∈ cities →
        ∃ payload v, answers requests_get (url_of c) payload
                     ∧ assoc "data" payload = Some v ∧ truthy v = false) →
  (collect cities).2 = Ret (pd_DataFrame [], [])
  ∧ st_errors (collect cities).1 = []
  ∧ http_gets (collect cities).1 = map url_of cities.
Proof.
  intros Htok Hempty.
  assert (Hfate : ∀ c, c ∈ cities → fate_of c = Skipped).
  { intros c Hc. destruct (Hempty c Hc) as (payload & v & Hans & Hdata & Hv).
    by apply (falsy_data_skipped c payload v). }
  assert (Hok : ∀ c, c ∈ cities → ¬ crashed c).
  { intros c Hc [e He]. rewrite (Hfate c Hc) in He. done. }
  destruct (fetch_all_spec API_TOKEN requests_get py_repr cities Hok)
    as (t & Hrun & _ & _ & Herr & Hget).
  rewrite Hrun. cbn [fst snd]. clear Hrun Hok Hempty.
  assert (Hlists : omap (fetched_row ∘ fate_of) cities = []
                   ∧ omap (failure_entry ∘ fate_of) cities = []).
  { clear Herr Hget. induction cities as [|c rest IH]; [by split|].
    destruct IH as [IHrows IHerrs]; [intros x Hx; apply Hfate; by right|].
    cbn. rewrite (Hfate c) by by left. by cbn. }
  destruct Hlists as [Hrows Herrs]. rewrite Hrows, Herrs, Htok in *.
  by repeat split.
Qed.

End CollectorEdgeCases.

Lemma visit_city_silent_skip_witness :
  visit_city (Some "t") empty_network plain_repr "Delhi" "delhi" [] []
  = ([EvHttpGet (feed_url (Some "t") "delhi")], Ret ([], [])).
Proof.
  apply (visit_city_silent_skip (Some "t") empty_network plain_repr
           "Delhi" "delhi" [("status", PStr "ok"); ("data", PDict [])]
           (PDict [])); try reflexivity.
  eexists. by repeat split.
Defined.

Lemma collector_counts_witness :
  ∃ df errors,
    (fetch_all (Some "t") sample_network plain_repr CITIES).2 = Ret (df, errors)
    ∧ (length (df_rows df) + length errors ≤ length CITIES)%nat.
Proof.
  eexists _, _. split; [reflexivity|].
  apply (collector_counts (Some "t") sample_network plain_repr). reflexivity.
Defined.

Lemma collector_requests_in_order_witness :
  http_gets (fetch_all (Some "t") sample_network plain_repr CITIES).1
  = map (λ c, feed_url (Some "t") c.2) CITIES
  ∧ sleeps (fetch_all (Some "t") sample_network plain_repr CITIES).1 = 12%nat.
Proof.
  eapply (collector_requests_in_order (Some "t") sample_network plain_repr CITIES);
    reflexivity.
Defined.

Lemma collector_progress_steps_witness :
  progress_steps (fetch_all (Some "t") sample_network plain_repr CITIES).1
  = [(1, 12); (2, 12); (3, 12); (4, 12); (5, 12); (6, 12);
     (7, 12); (8, 12); (9, 12); (10, 12); (11, 12); (12, 12)]%nat.
Proof.
  eapply (collector_progress_steps (Some "t") sample_network plain_repr CITIES).
  reflexivity.
Defined.

Lemma collector_stops_at_crash_witness :
  (fetch_all (Some "t") broken_network plain_repr CITIES).2
  = Raise (Exn TypeError "'NoneType' object is not subscriptable")
  ∧ http_gets (fetch_all (Some "t") broken_network plain_repr CITIES).1
    = [feed_url (Some "t") "delhi"; feed_url (Some "t") "mumbai";
       feed_url (Some "t") "kolkata"].
Proof.
  destruct (collector_stops_at_crash (Some "t") broken_network plain_repr
              [("Delhi", "delhi"); ("Mumbai", "mumbai")]
              [("Chennai", "chennai"); ("Bengaluru", "bangalore");
               ("Hyderabad", "hyderabad"); ("Pune", "pune");
               ("Ahmedabad", "ahmedabad"); ("Jaipur", "jaipur");
               ("Lucknow", "lucknow"); ("Bhopal", "bhopal"); ("Patna", "patna")]
              ("Kolkata", "kolkata")
              (Exn TypeError "'NoneType' object is not subscriptable"))
    as (Hraise & _ & Hget).
  - intros x Hx [e He].
    apply elem_of_cons in Hx as [->|Hx]; [vm_compute in He; discriminate|].
    apply elem_of_cons in Hx as [->|Hx]; [vm_compute in He; discriminate|].
    by apply elem_of_nil in Hx.
  - reflexivity.
  - by split.
Defined.

Lemma collector_outage_witness :
  ∃ errors,
    (fetch_all (Some "t") dead_network plain_repr CITIES).2
    = Ret (pd_DataFrame [], errors)
    ∧ length errors = 12%nat.
Proof.
  destruct (collector_outage (Some "t") dead_network plain_repr CITIES)
    as (errors & Hrun & Hentries & _).
  - reflexivity.
  - intros c _. eexists. by split.
  - exists errors. split; [done|].
    by rewrite <- (Forall2_length _ _ _ Hentries).
Defined.

Lemma collector_silent_on_empty_answers_witness :
  (fetch_all (Some "t") empty_network plain_repr CITIES).2
  = Ret (pd_DataFrame [], []).
Proof.
  destruct (collector_silent_on_empty_answers (Some "t") empty_network
              plain_repr CITIES) as (Hrun & _); [reflexivity| |done].
  intros c _.
  exists [("status", PStr "ok"); ("data", PDict [])], (PDict []).
  split; [|by split].
  eexists. by repeat split.
Defined.

(** ** Row extraction *)

(** X10.  A reading that is not an object makes the extraction raise an
    AttributeError that names the type of the reading. *)
Theorem data_point_needs_object (name : string) (reading : pyval) :
  (∀ payload, reading ≠ PDict payload) →
  data_point name reading
  = Raise (Exn AttributeError
             ("'" +:+ type_name reading +:+ "' object has no attribute 'get'")).
Proof.
  intros Hshape. destruct reading; try reflexivity. by destruct (Hshape d).
Qed.

Lemma data_point_needs_object_witness :
  data_point "Delhi" (PStr "maintenance")
  = Raise (Exn AttributeError "'str' object has no attribute 'get'").
Proof. by apply (data_point_needs_object "Delhi" (PStr "maintenance")). Defined.

(** X11.  From a reading that is an object, the row is built exactly when
    [city] is absent or an object whose [geo] is absent or has entries 0
    and 1 (a list of two or more entries, a string of two or more code
    points), and [time] is absent or an object; in every other case the
    extraction raises. *)
Theorem data_point_returns_iff (name : string) (payload : list (string * pyval)) :
  (∃ dp, data_point name (PDict payload) = Ret dp) ↔ extractable payload = true.
Proof.
  unfold extractable, indexable, data_point. cbn -[code_points].
  destruct (assoc "city" payload) as [[| | | | | |city]|]; cbn -[code_points];
    try (split; [by intros [dp Hdp]|done]).
  - destruct (assoc "geo" city) as [[| | | |s|[|lat [|lon rest]]|]|];
      cbn -[code_points]; try (split; [by intros [dp Hdp]|done]).
    1: destruct (code_points s) as [|a [|b cps]]; cbn;
      try (split; [by intros [dp Hdp]|done]).
    all: destruct (assoc "time" payload) as [[| | | | | |time]|]; cbn;
      first [ split; [by intros [dp Hdp]|done]
            | split; [done|intros _; by eexists] ].
  - destruct (assoc "time" payload) as [[| | | | | |time]|]; cbn;
      first [ split; [by intros [dp Hdp]|done]
            | split; [done|intros _; by eexists] ].
Qed.

(** ** Classifier *)

(** X12.  Among numbers that fall into bands, a larger number never gets a
    milder category than a smaller one. *)
Theorem get_aqi_category_monotone (a b : pyval) (p q : Q) (i j : nat) :
  finite_value a = Some p → finite_value b = Some q → (p <= q)%Q →
  severity (get_aqi_category a) = Some i →
  severity (get_aqi_category b) = Some j →
  (i ≤ j)%nat.
Proof.
  intros Ha Hb Hle.
  apply finite_value_number in Ha, Hb.
  unfold get_aqi_category. rewrite Ha, Hb.
  repeat classify_step p; repeat classify_step q;
    vm_compute; intros Hi Hj; try discriminate;
    injection Hi as <-; injection Hj as <-;
    try lia; exfalso; unfold inject_Z in *; lra.
Qed.

Lemma get_aqi_category_monotone_witness :
  severity (get_aqi_category (PInt 75)) = Some 1%nat
  ∧ severity (get_aqi_category (PInt 180)) = Some 3%nat
  ∧ (1 ≤ 3)%nat.
Proof.
  split; [reflexivity|]. split; [reflexivity|].
  apply (get_aqi_category_monotone (PInt 75) (PInt 180)
           (inject_Z 75) (inject_Z 180)); try reflexivity.
  unfold inject_Z, Qle. simpl. lia.
Defined.

(** X13.  The colour tells the category: two inputs that get the same
    colour get the same label. *)
Theorem get_aqi_category_colour_tells_label (a b : pyval) :
  (get_aqi_category a).2 = (get_aqi_category b).2 →
  (get_aqi_category a).1 = (get_aqi_category b).1.
Proof.
  destruct (get_aqi_category_total a) as [Ha|[ra Ha]];
    destruct (get_aqi_category_total b) as [Hb|[rb Hb]].
  all: try (apply spec_bands_inv in Ha;
            destruct Ha as [Ha|[Ha|[Ha|[Ha|[Ha|Ha]]]]];
            injection Ha as _ Ha).
  all: try (apply spec_bands_inv in Hb;
            destruct Hb as [Hb|[Hb|[Hb|[Hb|[Hb|Hb]]]]];
            injection Hb as _ Hb).
  all: rewrite Ha, Hb; cbn; intros H; try discriminate H; reflexivity.
Qed.

Lemma get_aqi_category_colour_tells_label_witness :
  (get_aqi_category (PInt 60)).1 = (get_aqi_category (PFloat (FFin (199 # 2)))).1.
Proof.
  by apply (get_aqi_category_colour_tells_label
              (PInt 60) (PFloat (FFin (199 # 2)))).
Defined.

(** ** Normalization *)

Section NormalizerEdgeCases.

Variable convert_object : pyval → option number.

Local Abbreviation to_num := (to_numeric convert_object).

Lemma filter_nil_existsb {A} (p : A → bool) (l : list A) :
  List.filter p l = [] ↔ existsb p l = false.
Proof.
  induction l as [|x l IH]; [done|].
  cbn. destruct (p x); cbn; [by split|done].
Qed.

(** X15.  The guarded block of the page leaves an empty table alone, runs
    to its end on a table with at least one row that has AQI, latitude and
    longitude, and raises a ValueError on a table that has rows none of
    which is complete. *)
Theorem process_for_display_outcome (df : positive) (σ : store) (f : DataFrame) :
  σ !! df = Some f →
  (process_for_display convert_object df σ).2
  = (if df_empty f || existsb complete (df_rows f) then Ret tt
     else Raise (Exn ValueError
                   "not enough values to unpack (expected 2, got 0)"))
  ∧ (df_rows f = [] → (process_for_display convert_object df σ).1 = σ).
Proof.
  intros Hdf. rewrite (process_for_display_cases convert_object df σ f Hdf).
  unfold df_empty. destruct (df_rows f) as [|r rows] eqn:Hrows; [done|].
  split; [|done]. cbn [orb].
  rewrite (normalize_unfold convert_object df σ f Hdf).
  destruct (map _ (df_rows (cleaned convert_object f))) as [|c cats] eqn:Hcats;
    cbn [snd].
  - apply map_eq_nil in Hcats. rewrite cleaned_rows, Hrows in Hcats.
    apply map_eq_nil, filter_nil_existsb in Hcats. by rewrite Hcats.
  - destruct (existsb complete (r :: rows)) eqn:Hex; [done|].
    apply filter_nil_existsb in Hex.
    by rewrite cleaned_rows, Hrows, Hex in Hcats.
Qed.

Lemma pd_DataFrame_labels (all_data : list DataPoint) (r : Row) :
  r ∈ df_rows (pd_DataFrame all_data) → all_data !! label r = Some (cells r).
Proof.
  unfold pd_DataFrame. cbn. intros Hr.
  apply list_elem_of_lookup in Hr as [i Hi].
  rewrite list_lookup_imap in Hi.
  destruct (all_data !! i) as [dp|] eqn:Hdp; [|done].
  cbn in Hi. injection Hi as <-. done.
Qed.

Lemma imap_rows_labels (g : nat → nat) (all_data : list DataPoint) :
  map label (imap (λ i dp, {| label := g i; cells := dp |}) all_data)
  = map g (seq 0 (length all_data)).
Proof.
  revert g. induction all_data as [|dp rest IH]; intros g; [done|].
  cbn. f_equal. rewrite <- seq_shift, map_map. apply (IH (g ∘ S)).
Qed.

(** X16.  The table keeps the index of the batch: after the block, the
    labels of the rows are an increasing selection of 0, 1, ..., n-1, and
    the row labelled k holds the cells of the k-th fetched reading, with
    only its AQI coerced. *)
Theorem normalize_labels_point_back (df : positive) (σ : store)
    (all_data : list DataPoint) (out : DataFrame) :
  σ !! df = Some (pd_DataFrame all_data) →
  (normalize convert_object df σ).1 !! df = Some out →
  map label (df_rows out) `sublist_of` seq 0 (length all_data)
  ∧ ∀ r, r ∈ df_rows out →
         ∃ dp, all_data !! label r = Some dp
               ∧ City (cells r) = City dp
               ∧ AQI (cells r) = to_num (AQI dp)
               ∧ Latitude (cells r) = Latitude dp
               ∧ Longitude (cells r) = Longitude dp
               ∧ Timestamp (cells r) = Timestamp dp.
Proof.
  intros Hdf Hout.
  destruct (normalize_lookup convert_object df σ _ Hdf)
    as (out' & Hout' & Hrows & _).
  assert (out' = out) as -> by congruence.
  rewrite cleaned_rows in Hrows. rewrite Hrows. split.
  - assert (Hall : map label (df_rows (pd_DataFrame all_data))
                   = seq 0 (length all_data)).
    { etransitivity; [apply (imap_rows_labels id all_data)|apply map_id]. }
    rewrite map_map, (map_ext _ label) by done. rewrite <- Hall.
    apply fmap_sublist, filter_sublist_of.
  - intros r Hr.
    apply list_elem_of_In, in_map_iff in Hr as (r0 & <- & Hr0).
    apply filter_In in Hr0 as [Hr0 _].
    apply list_elem_of_In, pd_DataFrame_labels in Hr0.
    exists (cells r0). by repeat split.
Qed.

End NormalizerEdgeCases.

Lemma process_for_display_outcome_witness :
  (process_for_display decimal_converter 1 {[1%positive := all_incomplete]}).2
  = Raise (Exn ValueError "not enough values to unpack (expected 2, got 0)").
Proof.
  assert (Hdf : ({[1%positive := all_incomplete]} : store) !! 1%positive
                = Some all_incomplete) by reflexivity.
  by destruct (process_for_display_outcome decimal_converter 1 _ _ Hdf)
    as [-> _].
Defined.

Lemma normalize_labels_point_back_witness :
  ∃ out, (normalize decimal_converter 1 {[1%positive := one_incomplete]}).1
         !! 1%positive = Some out
         ∧ map label (df_rows out) `sublist_of` [0; 1; 2]%nat.
Proof.
  assert (Hdf : ({[1%positive := one_incomplete]} : store) !! 1%positive
                = Some one_incomplete) by reflexivity.
  destruct (normalize_lookup decimal_converter 1 _ _ Hdf) as (out & Hout & _).
  exists out. split; [done|].
  by destruct (normalize_labels_point_back decimal_converter 1 _ _ out Hdf Hout)
    as [Hlabels _].
Defined.

Lemma normalize_rows_located_witness :
  ∃ out, (normalize decimal_converter 1 {[1%positive := dash_station]}).1
         !! 1%positive = Some out
         ∧ ∀ r, r ∈ df_rows out →
                isna (Latitude (cells r)) = false
                ∧ isna (Longitude (cells r)) = false
                ∧ is_numeric (AQI (cells r)) = true.
Proof.
  assert (Hdf : ({[1%positive := dash_station]} : store) !! 1%positive
                = Some dash_station) by reflexivity.
  destruct (normalize_lookup decimal_converter 1 _ _ Hdf) as (out & Hout & _).
  exists out. split; [done|].
  exact (normalize_rows_located decimal_converter 1 _ _ out Hdf Hout).
Defined.

(** ** The page *)

Section PageProperties.

Variable API_TOKEN : option string.
Variable requests_get : string → outcome response.
Variable py_repr : pyval → string.
Variable convert_object : pyval → option number.

Local Abbreviation fate_of := (city_fate API_TOKEN requests_get py_repr).
Local Abbreviation crashed := (city_crashed API_TOKEN requests_get py_repr).
Local Abbreviation url_of := (λ c : string * string, feed_url API_TOKEN c.2).
Local Abbreviation page :=
  (show_data API_TOKEN requests_get py_repr convert_object).

(** X17.  When every request fails with a request exception and a token is
    configured, the page binds [df] to an empty table, shows one warning
    per city in the order of the configuration and then the notice that
    there is no data, and ends without an exception. *)
Theorem show_data_outage (df : positive) (σ : store) :
  token_missing API_TOKEN = false →
  (∀ c, c ∈ CITIES →
        ∃ ex, requests_get (url_of c) = Raise ex
              ∧ is_request_exception ex = true) →
  (page df σ).1.1 = <[df := pd_DataFrame []]> σ
  ∧ (page df σ).2 = Ret tt
  ∧ Forall2 (λ c msg,
               ∃ ex, requests_get (url_of c) = Raise ex
                     ∧ msg = "Could not fetch data for " +:+ c.1
                             +:+ ": Network error: " +:+ exn_text ex)
      CITIES (warnings (page df σ).1.2)
  ∧ notices (page df σ).1.2 = [NO_DATA].
Proof.
  intros Htok Hdown.
  destruct (fetch_all_outage API_TOKEN requests_get py_repr CITIES Htok Hdown)
    as (errors & Hrun & Hentries & _).
  unfold show_data, fetch_all_cities_data.
  destruct (fetch_all API_TOKEN requests_get py_repr CITIES) as [t r].
  cbn [snd] in Hrun. subst r. cbn [df_empty pd_DataFrame df_rows imap fst snd].
  split; [done|]. split; [done|].
  unfold warnings, notices. rewrite !omap_app.
  assert (Hc : ∀ A (f : page_event → option A),
             (∀ e, f (Collector e) = None) → omap f (map Collector t) = []).
  { intros A f Hf. induction t as [|e t' IH]; [done|]. cbn. by rewrite Hf. }
  rewrite !Hc by done. cbn.
  assert (Hw : ∀ l, omap (λ e, match e with
                                | StWarning msg => Some msg
                                | _ => None
                                end) (map StWarning l) = l)
    by (induction l as [|m l IH]; [done|]; cbn; by rewrite IH).
  assert (Hn : ∀ l, omap (λ e, match e with
                                | StInfo msg => Some msg
                                | _ => None
                                end) (map StWarning l) = [])
    by (induction l as [|m l IH]; [done|]; cbn; by rewrite IH).
  rewrite Hw, Hn, app_nil_r. by split.
Qed.

(** Readings without coordinates give rows without coordinates. *)
Lemma placeless_fate (c : string * string) (payload reading : list (string * pyval)) :
  token_missing API_TOKEN = false →
  answers requests_get (url_of c) payload →
  assoc "status" payload = Some (PStr "ok") →
  assoc "data" payload = Some (PDict reading) →
  reading ≠ [] → assoc "city" reading = None → extractable reading = true →
  ∃ dp, fate_of c = Fetched dp ∧ Latitude dp = PNone.
Proof.
  intros Htok Hans Hstatus Hdata Hne Hcity Hshape. unfold city_fate.
  rewrite (get_aqi_data_answer _ _ _ payload Htok Hans), Hstatus, Hdata.
  assert (Ht : truthy (PDict reading) = true) by (by destruct reading).
  remember (PDict reading) as rd eqn:Hrd. cbn. rewrite Ht. subst rd.
  unfold extractable in Hshape. rewrite Hcity in Hshape. cbn [andb] in Hshape.
  unfold data_point. cbn [py_get mbind outcome_bind]. rewrite Hcity.
  cbn [py_get py_getitem_idx lookup list_lookup mbind outcome_bind].
  destruct (assoc "time" reading) as [[| | | | | |time]|];
    try done; cbn; eexists; split; reflexivity.
Qed.


End PageProperties.

Lemma show_data_outage_witness :
  (show_data (Some "t") dead_network plain_repr decimal_converter 1 ∅).2
  = Ret tt
  ∧ notices (show_data (Some "t") dead_network plain_repr decimal_converter 1 ∅).1.2
    = [NO_DATA].
Proof.
  destruct (show_data_outage (Some "t") dead_network plain_repr
              decimal_converter 1 ∅) as (_ & Hret & _ & Hnotice).
  - reflexivity.
  - intros c _. eexists. by split.
  - by split.
Defined.

